(** * COVID-19 analysis pipeline ([project.py]): a shallow embedding

    [analyze_covid_data] is one straight-line pandas pipeline inside a
    [try / except / finally].  The embedding follows it line by line:

    - a float64 cell is an IEEE-754 binary64 value ([SpecFloat], precision
      53, infinity exponent 1024); pandas' missing marker is NaN;
    - a [DataFrame] is its header ([columns]) and its rows in source order;
      a row is a record over the columns the script touches;
    - every pandas call of the script is one definition, named after it;
    - printing and plotting are events of a trace; Python exceptions are
      values of [exn], threaded by the monad [Py]. *)

From Stdlib Require Import String Ascii List ZArith Bool Lia Arith.
From Stdlib Require Import Sorting.Sorted Sorting.Permutation.
From Stdlib Require Floats.SpecFloat.
From Stdlib Require DecimalString.
From Stdlib Require OrderedTypeEx.
Import ListNotations.

Local Open Scope string_scope.
Local Open Scope list_scope.

(** ** float64 *)

Module F64.

Definition float := SpecFloat.spec_float.

Definition prec : Z := 53.
Definition emax : Z := 1024.

Definition nan : float := SpecFloat.S754_nan.
Definition zero : float := SpecFloat.S754_zero false.
Definition pinf : float := SpecFloat.S754_infinity false.

(** The largest finite float64. *)
Definition max_float : float := SpecFloat.SFmax_float prec emax.

Definition add : float -> float -> float := SpecFloat.SFadd prec emax.
Definition sub : float -> float -> float := SpecFloat.SFsub prec emax.
Definition mul : float -> float -> float := SpecFloat.SFmul prec emax.
Definition div : float -> float -> float := SpecFloat.SFdiv prec emax.
Definition eqb : float -> float -> bool := SpecFloat.SFeqb.
Definition leb : float -> float -> bool := SpecFloat.SFleb.
Definition opp : float -> float := SpecFloat.SFopp.

(** The float64 nearest to an integer (exact below 2^53). *)
Definition of_Z (z : Z) : float :=
  SpecFloat.binary_normalize prec emax z 0 false.

(** [pd.isna] on a float cell / [npy_isnan]. *)
Definition isnan (x : float) : bool :=
  match x with SpecFloat.S754_nan => true | _ => false end.

Definition is_zero (x : float) : bool :=
  match x with SpecFloat.S754_zero _ => true | _ => false end.

(** Sign bit of a value that is not NaN. *)
Definition signbit (x : float) : bool :=
  match x with
  | SpecFloat.S754_zero s | SpecFloat.S754_infinity s
  | SpecFloat.S754_finite s _ _ => s
  | SpecFloat.S754_nan => false
  end.

End F64.

Abbreviation float := F64.float.

(** ** Rows and frames *)

(** A cell of the [date] column: the text read from the file, a parsed
    timestamp (after [pd.to_datetime]), or missing (NaN / NaT). *)
Inductive DateCell : Type :=
| DateStr (s : string)
| Timestamp (t : Z)
| DateNaN.

(** The float64 columns of the table: the six [numeric_cols] of line 45,
    [population], and the two columns the script adds. *)
Inductive NumCol : Type :=
| TotalCases | NewCases | TotalDeaths | NewDeaths
| TotalVaccinations | PeopleVaccinated
| Population | DeathRate | VaccinationRate.

Definition col_name (c : NumCol) : string :=
  match c with
  | TotalCases => "total_cases"
  | NewCases => "new_cases"
  | TotalDeaths => "total_deaths"
  | NewDeaths => "new_deaths"
  | TotalVaccinations => "total_vaccinations"
  | PeopleVaccinated => "people_vaccinated"
  | Population => "population"
  | DeathRate => "death_rate"
  | VaccinationRate => "vaccination_rate"
  end.

(** Line 45. *)
Definition numeric_cols : list NumCol :=
  [TotalCases; NewCases; TotalDeaths; NewDeaths;
   TotalVaccinations; PeopleVaccinated].

Record Row : Type := mkRow {
  location : string;
  date : DateCell;
  total_cases : float;
  new_cases : float;
  total_deaths : float;
  new_deaths : float;
  total_vaccinations : float;
  people_vaccinated : float;
  population : float;
  death_rate : float;
  vaccination_rate : float
}.

(** [row[col]] *)
Definition get (c : NumCol) (r : Row) : float :=
  match c with
  | TotalCases => total_cases r
  | NewCases => new_cases r
  | TotalDeaths => total_deaths r
  | NewDeaths => new_deaths r
  | TotalVaccinations => total_vaccinations r
  | PeopleVaccinated => people_vaccinated r
  | Population => population r
  | DeathRate => death_rate r
  | VaccinationRate => vaccination_rate r
  end.

(** [row[col] = v] *)
Definition set (c : NumCol) (v : float) (r : Row) : Row :=
  let '(mkRow l d tc nc td nd tv pv po dr vr) := r in
  match c with
  | TotalCases => mkRow l d v nc td nd tv pv po dr vr
  | NewCases => mkRow l d tc v td nd tv pv po dr vr
  | TotalDeaths => mkRow l d tc nc v nd tv pv po dr vr
  | NewDeaths => mkRow l d tc nc td v tv pv po dr vr
  | TotalVaccinations => mkRow l d tc nc td nd v pv po dr vr
  | PeopleVaccinated => mkRow l d tc nc td nd tv v po dr vr
  | Population => mkRow l d tc nc td nd tv pv v dr vr
  | DeathRate => mkRow l d tc nc td nd tv pv po v vr
  | VaccinationRate => mkRow l d tc nc td nd tv pv po dr v
  end.

Definition set_date (d : DateCell) (r : Row) : Row :=
  let '(mkRow l _ tc nc td nd tv pv po dr vr) := r in
  mkRow l d tc nc td nd tv pv po dr vr.

(** A frame: the header found in the file (extended by column assignment)
    and the rows in source order.  A field of a row is observable only when
    its column is in the header; the fields of absent columns are
    placeholders that every access guards with [require]. *)
Record DataFrame : Type := mkDF {
  columns : list string;
  rows : list Row
}.

Definition has_col (name : string) (df : DataFrame) : bool :=
  existsb (String.eqb name) (columns df).

(** ** Exceptions, events, and the monad of the script *)

(** The exception classes the pipeline can meet, all below [Exception]. *)
Inductive exn : Type :=
| FileNotFoundError (msg : string)
| KeyError (msg : string)
| ValueError (msg : string)
| OtherException (msg : string).

(** [str(e)] as interpolated by the f-strings of the handlers. *)
Definition exn_str (e : exn) : string :=
  match e with
  | FileNotFoundError m | KeyError m | ValueError m | OtherException m => m
  end.

Inductive result (A : Type) : Type :=
| Ok (a : A)
| Raise (e : exn).
Arguments Ok {A} a.
Arguments Raise {A} e.

Definition rbind {A B} (r : result A) (k : A -> result B) : result B :=
  match r with
  | Ok a => k a
  | Raise e => Raise e
  end.

(** What the script shows: console output and the figures handed to
    [plt.show()]. *)
Inductive event : Type :=
| Print (s : string)
| PrintColumns (cols : list string)
| PrintHead (head : list Row)
| PrintNullCounts (df : DataFrame)
| LinePlot (title : string) (series : list (string * list (DateCell * float)))
| BarPlot (title : string) (bars : list (string * float)).

(** Output so far, and a value or the exception that stopped the run. *)
Definition Py (A : Type) : Type := (list event * result A)%type.

Definition ret {A} (a : A) : Py A := ([], Ok a).

Definition bind {A B} (m : Py A) (k : A -> Py B) : Py B :=
  match m with
  | (out, Ok a) => let '(out', r) := k a in (out ++ out', r)
  | (out, Raise e) => (out, Raise e)
  end.

Definition emit (e : event) : Py unit := ([e], Ok tt).
Definition lift {A} (r : result A) : Py A := ([], r).

Declare Scope py_scope.
Delimit Scope py_scope with py.
Notation "x <- m ;; k" := (bind m (fun x => k))
  (at level 61, m at next level, right associativity) : py_scope.
Notation "m ;;; k" := (bind m (fun _ => k))
  (at level 61, right associativity) : py_scope.

Declare Scope res_scope.
Delimit Scope res_scope with res.
Notation "x <- m ;; k" := (rbind m (fun x => k))
  (at level 61, m at next level, right associativity) : res_scope.

(** ** The pandas calls of the cleaning stage (lines 36-50) *)

(** [df[name]] on a frame without that column raises [KeyError]. *)
Definition require (name : string) (df : DataFrame) : result unit :=
  if has_col name df then Ok tt else Raise (KeyError ("'" ++ name ++ "'")).

(** [Series.isin(values)], element-wise. *)
Definition isin (values : list string) (s : string) : bool :=
  existsb (String.eqb s) values.

(** [df[mask]]: the rows where the mask holds, in source order. *)
Definition boolean_mask (mask : Row -> bool) (df : DataFrame) : DataFrame :=
  mkDF (columns df) (filter mask (rows df)).

(** Line 36: [df[df['location'].isin(selected_countries)].copy()]. *)
Definition filter_selected (selected : list string) (df : DataFrame)
  : result DataFrame :=
  (_ <- require "location" df ;;
   Ok (boolean_mask (fun r => isin selected (location r)) df))%res.

Definition date_notna (r : Row) : bool :=
  match date r with DateNaN => false | _ => true end.

(** Line 39: [dropna(subset=['date'])]. *)
Definition dropna_date (df : DataFrame) : result DataFrame :=
  if has_col "date" df then Ok (boolean_mask date_notna df)
  else Raise (KeyError "['date']").

Section ToDatetime.

(** The date parser of [pd.to_datetime]: the timestamp a string denotes,
    or nothing.  It belongs to pandas and is kept abstract. *)
Variable parse_datetime : string -> option Z.

Definition to_datetime_cell (c : DateCell) : result DateCell :=
  match c with
  | DateStr s =>
      match parse_datetime s with
      | Some t => Ok (Timestamp t)
      | None => Raise (ValueError ("Unknown datetime string format, unable to parse: " ++ s))
      end
  | Timestamp t => Ok (Timestamp t)
  | DateNaN => Ok DateNaN
  end.

(** [pd.to_datetime(series)]: all cells, or the first failure. *)
Fixpoint to_datetime (rs : list Row) : result (list Row) :=
  match rs with
  | [] => Ok []
  | r :: rs' =>
      (d <- to_datetime_cell (date r) ;;
       rs'' <- to_datetime rs' ;;
       Ok (set_date d r :: rs''))%res
  end.

(** Line 42: [df_filtered['date'] = pd.to_datetime(df_filtered['date'])]. *)
Definition convert_dates (df : DataFrame) : result DataFrame :=
  (_ <- require "date" df ;;
   rs <- to_datetime (rows df) ;;
   Ok (mkDF (columns df) rs))%res.

End ToDatetime.

(** *** [Series.interpolate()] with its defaults

    [method='linear'] ignores the index and takes the values as equally
    spaced: the abscissa of an entry is its position in the series.
    [limit_direction='forward'] with no [limit] and no [limit_area]: the
    NaNs before the first valid entry are preserved, every other NaN
    receives [np.interp] over the valid entries. *)

(** Positions and values of the valid (non-NaN) entries, from position [i]. *)
Fixpoint valid_points (i : Z) (ys : list float) : list (Z * float) :=
  match ys with
  | [] => []
  | y :: ys' =>
      if F64.isnan y then valid_points (i + 1) ys'
      else (i, y) :: valid_points (i + 1) ys'
  end.

(** The inner step of numpy's [arr_interp] between the knots [(a, ya)] and
    [(b, yb)]: the slope form, the other direction when that gives NaN,
    and the common ordinate when both do. *)
Definition interp_between (a : Z) (ya : float) (b : Z) (yb : float) (x : Z)
  : float :=
  let slope := F64.div (F64.sub yb ya) (F64.sub (F64.of_Z b) (F64.of_Z a)) in
  let res := F64.add (F64.mul slope (F64.sub (F64.of_Z x) (F64.of_Z a))) ya in
  if F64.isnan res then
    let res' := F64.add (F64.mul slope (F64.sub (F64.of_Z x) (F64.of_Z b))) yb in
    if F64.isnan res' && F64.eqb ya yb then ya else res'
  else res.

(** [np.interp(x, xp, fp)] for an abscissa that is not a knot: the first
    ordinate on the left of all knots, the last one on their right. *)
Fixpoint np_interp (x : Z) (pts : list (Z * float)) : float :=
  match pts with
  | [] => F64.nan
  | (a, ya) :: rest =>
      match rest with
      | [] => ya
      | (b, yb) :: _ =>
          if (x <? a)%Z then ya
          else if (x <? b)%Z then interp_between a ya b yb x
          else np_interp x rest
      end
  end.

(** The NaN entries from position [i] on: preserved before [first], else
    interpolated. *)
Fixpoint fill_invalid (first : Z) (pts : list (Z * float)) (i : Z)
  (ys : list float) : list float :=
  match ys with
  | [] => []
  | y :: ys' =>
      (if F64.isnan y
       then (if (i <? first)%Z then F64.nan else np_interp i pts)
       else y) :: fill_invalid first pts (i + 1) ys'
  end.

Definition interpolate (ys : list float) : list float :=
  match valid_points 0 ys with
  | [] => ys
  | (first, y0) :: rest => fill_invalid first ((first, y0) :: rest) 0 ys
  end.

(** Writing the values [vs], in order, into column [col] of the rows. *)
Definition write_col (col : NumCol) (vs : list float) (rs : list Row)
  : list Row :=
  map (fun rv => set col (snd rv) (fst rv)) (combine rs vs).

(** The rows of one [groupby('location')] group, in source order. *)
Definition group (k : string) (rs : list Row) : list Row :=
  filter (fun r => String.eqb (location r) k) rs.

(** [df[col] = df.groupby('location')[col].apply(lambda x: x.interpolate())].
    The applied function returns, for each group, a series on the group's
    own index labels; the result keeps the labels of the frame (the
    behaviour the script relies on for the assignment to go through), and
    the assignment aligns on labels.  The labels of the filtered frame are
    distinct, so the row at position [p] receives the entry of its group's
    interpolated series at the rank the row has inside its group. *)
Fixpoint assign_from (col : NumCol) (orig : list Row) (p : nat)
  (rest : list Row) : list Row :=
  match rest with
  | [] => []
  | r :: rest' =>
      let series := interpolate (map (get col) (group (location r) orig)) in
      let rank := length (group (location r) (firstn p orig)) in
      set col (nth rank series F64.nan) r :: assign_from col orig (S p) rest'
  end.

Definition groupby_interpolate (col : NumCol) (rs : list Row) : list Row :=
  assign_from col rs 0 rs.

(** One turn of the loop of lines 46-47. *)
Definition interpolate_col (col : NumCol) (df : DataFrame) : result DataFrame :=
  if has_col (col_name col) df
  then Ok (mkDF (columns df) (groupby_interpolate col (rows df)))
  else Raise (KeyError ("'Column not found: " ++ col_name col ++ "'")).

(** Lines 46-47: [for col in numeric_cols: ...]. *)
Fixpoint interpolate_cols (cols : list NumCol) (df : DataFrame)
  : result DataFrame :=
  match cols with
  | [] => Ok df
  | c :: cols' => (df' <- interpolate_col c df ;; interpolate_cols cols' df')%res
  end.

Definition fill0 (x : float) : float :=
  if F64.isnan x then F64.zero else x.

(** Line 50: [df_filtered.fillna(0)] replaces the NaN of every column.  No
    date is missing any more at this point (line 39). *)
Definition fillna0_row (r : Row) : Row :=
  mkRow (location r) (date r)
    (fill0 (total_cases r)) (fill0 (new_cases r))
    (fill0 (total_deaths r)) (fill0 (new_deaths r))
    (fill0 (total_vaccinations r)) (fill0 (people_vaccinated r))
    (fill0 (population r)) (fill0 (death_rate r)) (fill0 (vaccination_rate r)).

Definition fillna0 (df : DataFrame) : DataFrame :=
  mkDF (columns df) (map fillna0_row (rows df)).

(** ** The derived columns (lines 92 and 117) *)

(** [df[name] = values]: a new column goes to the end of the header. *)
Definition with_column (name : string) (cols : list string) : list string :=
  if existsb (String.eqb name) cols then cols else cols ++ [name].

Definition death_rate_of (r : Row) : float :=
  F64.div (total_deaths r) (total_cases r).

Definition hundred : float := F64.of_Z 100.

Definition vaccination_rate_of (r : Row) : float :=
  F64.mul (F64.div (people_vaccinated r) (population r)) hundred.

(** Line 92. *)
Definition add_death_rate (df : DataFrame) : result DataFrame :=
  (_ <- require "total_deaths" df ;;
   _ <- require "total_cases" df ;;
   Ok (mkDF (with_column "death_rate" (columns df))
            (map (fun r => set DeathRate (death_rate_of r) r) (rows df))))%res.

(** Line 117. *)
Definition add_vaccination_rate (df : DataFrame) : result DataFrame :=
  (_ <- require "people_vaccinated" df ;;
   _ <- require "population" df ;;
   Ok (mkDF (with_column "vaccination_rate" (columns df))
            (map (fun r => set VaccinationRate (vaccination_rate_of r) r)
                 (rows df))))%res.

(** ** The latest-per-entity summary (lines 130-134) *)

(** [groupby] sorts the group keys: the distinct locations in
    lexicographic order. *)
Fixpoint insert_key (k : string) (ks : list string) : list string :=
  match ks with
  | [] => [k]
  | k' :: ks' =>
      match String.compare k k' with
      | Lt => k :: ks
      | Eq => ks
      | Gt => k' :: insert_key k ks'
      end
  end.

Definition group_keys (rs : list Row) : list string :=
  fold_right insert_key [] (map location rs).

(** [GroupBy.last()] takes, column by column, the last entry of the group
    that is not null. *)
Fixpoint last_valid (vs : list float) : float :=
  match vs with
  | [] => F64.nan
  | v :: vs' => let l := last_valid vs' in if F64.isnan l then v else l
  end.

Fixpoint last_date (ds : list DateCell) : DateCell :=
  match ds with
  | [] => DateNaN
  | d :: ds' =>
      match last_date ds' with
      | DateNaN => d
      | l => l
      end
  end.

Definition last_of_group (k : string) (g : list Row) : Row :=
  mkRow k (last_date (map date g))
    (last_valid (map total_cases g)) (last_valid (map new_cases g))
    (last_valid (map total_deaths g)) (last_valid (map new_deaths g))
    (last_valid (map total_vaccinations g))
    (last_valid (map people_vaccinated g))
    (last_valid (map population g))
    (last_valid (map death_rate g)) (last_valid (map vaccination_rate g)).

(** The rows of [groupby('location').last()], one per key, in key order. *)
Definition latest (rs : list Row) : list Row :=
  map (fun k => last_of_group k (group k rs)) (group_keys rs).

(** Line 130: [df_filtered.groupby('location').last().reset_index()]. *)
Definition groupby_last (df : DataFrame) : result DataFrame :=
  (_ <- require "location" df ;;
   Ok (mkDF ("location" ::
             filter (fun c => negb (String.eqb c "location")) (columns df))
            (latest (rows df))))%res.

(** The list literal of line 133. *)
Definition snapshot_population : list float :=
  [F64.of_Z 100000000; F64.of_Z 330000000; F64.of_Z 1400000000].

Definition show_nat (n : nat) : string :=
  DecimalString.NilEmpty.string_of_uint (Nat.to_uint n).

(** [df['population'] = values] with a list: positional, and a
    [ValueError] unless the list is as long as the index. *)
Definition assign_population (values : list float) (df : DataFrame)
  : result DataFrame :=
  if Nat.eqb (length values) (length (rows df))
  then Ok (mkDF (with_column "population" (columns df))
                (write_col Population values (rows df)))
  else Raise (ValueError ("Length of values (" ++ show_nat (length values)
                          ++ ") does not match length of index ("
                          ++ show_nat (length (rows df)) ++ ")")).

(** ** Plotting *)

(** The body of one [for country in selected_countries] loop: the rows of
    the country, and the two columns handed to [plt.plot]. *)
Definition country_series (col : NumCol) (df : DataFrame) (country : string)
  : result (string * list (DateCell * float)) :=
  (_ <- require "location" df ;;
   _ <- require "date" df ;;
   _ <- require (col_name col) df ;;
   Ok (country, map (fun r => (date r, get col r)) (group country (rows df))))%res.

Fixpoint all_series (col : NumCol) (df : DataFrame) (countries : list string)
  : result (list (string * list (DateCell * float))) :=
  match countries with
  | [] => Ok []
  | c :: cs =>
      (s <- country_series col df c ;;
       ss <- all_series col df cs ;;
       Ok (s :: ss))%res
  end.

(** One figure: the loop, then [plt.show()]. *)
Definition line_plot (title : string) (col : NumCol) (selected : list string)
  (df : DataFrame) : Py unit :=
  (series <- lift (all_series col df selected) ;;
   emit (LinePlot title series))%py.

(** Lines 137-142: [sns.barplot(x='location', y='vaccination_rate', ...)]. *)
Definition bar_plot (title : string) (df : DataFrame) : Py unit :=
  (_ <- lift (require "location" df) ;;
   _ <- lift (require "vaccination_rate" df) ;;
   emit (BarPlot title (map (fun r => (location r, vaccination_rate r)) (rows df))))%py.

(** ** [try] / [except] / [finally] *)

Inductive exn_class : Type :=
| CFileNotFoundError
| CKeyError
| CException.

Definition isinstance (e : exn) (c : exn_class) : bool :=
  match c, e with
  | CFileNotFoundError, FileNotFoundError _ => true
  | CKeyError, KeyError _ => true
  | CException, _ => true
  | _, _ => false
  end.

(** The first clause whose class matches handles the exception; with no
    matching clause it stays raised. *)
Fixpoint dispatch (handlers : list (exn_class * (exn -> Py unit))) (e : exn)
  : Py unit :=
  match handlers with
  | [] => lift (Raise e)
  | (c, h) :: hs => if isinstance e c then h e else dispatch hs e
  end.

Definition try_except_finally (body : Py unit)
  (handlers : list (exn_class * (exn -> Py unit))) (final : Py unit)
  : Py unit :=
  let '(out, r) := body in
  let '(out', r') :=
    match r with
    | Ok _ => ([], Ok tt)
    | Raise e => dispatch handlers e
    end in
  let '(out'', r'') := final in
  (out ++ out' ++ out'',
   match r'' with
   | Raise e => Raise e
   | Ok _ => r'
   end).

Definition nl : string := String (ascii_of_nat 10) EmptyString.

(** ** The pipeline *)

Section Pipeline.

(** pandas' date parser, and what [pd.read_csv] returns at a path: the
    table of the file, or the exception it raises
    ([FileNotFoundError] for a path that does not exist). *)
Variable parse_datetime : string -> option Z.
Variable read_csv : string -> result DataFrame.

(** Lines 36-50: filter, drop undated rows, parse dates, interpolate the
    six numeric columns per location, zero-fill. *)
Definition clean_missing (df : DataFrame) (selected : list string)
  : result DataFrame :=
  (df1 <- filter_selected selected df ;;
   df2 <- dropna_date df1 ;;
   df3 <- convert_dates parse_datetime df2 ;;
   df4 <- interpolate_cols numeric_cols df3 ;;
   Ok (fillna0 df4))%res.

(** The cleaning stage with its two derived columns (lines 36-50, 92 and
    117): the table the figures are drawn from. *)
Definition clean (df : DataFrame) (selected : list string)
  : result DataFrame :=
  (df1 <- clean_missing df selected ;;
   df2 <- add_death_rate df1 ;;
   add_vaccination_rate df2)%res.

(** Lines 130-134. *)
Definition summarize_latest (df_filtered : DataFrame) : result DataFrame :=
  (l1 <- groupby_last df_filtered ;;
   l2 <- assign_population snapshot_population l1 ;;
   add_vaccination_rate l2)%res.

Definition bar_title : string := "Latest Vaccination Rate by Country".

(** Lines 20-151, the body of the [try]. *)
Definition analyze_body (data_path : string) (selected_countries : list string)
  : Py unit :=
  (df <- lift (read_csv data_path) ;;
   emit (Print ("Data loaded successfully from " ++ data_path)) ;;;
   emit (Print (nl ++ "--- Data Exploration ---")) ;;;
   emit (PrintColumns (columns df)) ;;;
   emit (Print "First 5 rows:") ;;;
   emit (PrintHead (firstn 5 (rows df))) ;;;
   emit (Print "Missing values before cleaning:") ;;;
   emit (PrintNullCounts df) ;;;
   df_filtered <- lift (clean_missing df selected_countries) ;;
   emit (Print (nl ++ "Missing values after cleaning:")) ;;;
   emit (PrintNullCounts df_filtered) ;;;
   emit (Print (nl ++ "Data cleaning complete.")) ;;;
   emit (Print (nl ++ "--- Exploratory Data Analysis ---")) ;;;
   line_plot "Total COVID-19 Cases Over Time" TotalCases
     selected_countries df_filtered ;;;
   line_plot "Total COVID-19 Deaths Over Time" TotalDeaths
     selected_countries df_filtered ;;;
   line_plot "Daily New COVID-19 Cases" NewCases
     selected_countries df_filtered ;;;
   df_filtered <- lift (add_death_rate df_filtered) ;;
   line_plot "COVID-19 Death Rate (Total Deaths / Total Cases)" DeathRate
     selected_countries df_filtered ;;;
   emit (Print (nl ++ "--- Vaccination Analysis ---")) ;;;
   line_plot "Total COVID-19 Vaccinations Over Time" TotalVaccinations
     selected_countries df_filtered ;;;
   df_filtered <- lift (add_vaccination_rate df_filtered) ;;
   line_plot "Percentage of Population Vaccinated Over Time" VaccinationRate
     selected_countries df_filtered ;;;
   latest_vaccination_data <- lift (summarize_latest df_filtered) ;;
   bar_plot bar_title latest_vaccination_data ;;;
   emit (Print (nl ++ "--- Insights ---")) ;;;
   emit (Print (nl ++ "Key Insights:")) ;;;
   emit (Print "* USA has the highest total cases among the selected countries.") ;;;
   emit (Print "* India experienced a surge in new cases around mid-2021.") ;;;
   emit (Print "* Kenya's vaccination rate is lower compared to USA and India.") ;;;
   emit (Print "* The death rate varies across countries, indicating different healthcare outcomes."))%py.

Definition msg_not_found (data_path : string) : string :=
  "Error: The file '" ++ data_path
  ++ "' was not found. Please check the file path.".

Definition msg_missing_column (e : exn) : string :=
  "Error: A required column is missing: " ++ exn_str e
  ++ ".  Please ensure the dataset has the necessary columns (date, location, total_cases, etc.)".

Definition msg_unexpected (e : exn) : string :=
  "An unexpected error occurred: " ++ exn_str e.

Definition msg_complete : string := nl ++ "Analysis complete.".

(** Lines 153-159. *)
Definition handlers (data_path : string) : list (exn_class * (exn -> Py unit)) :=
  [ (CFileNotFoundError, fun _ => emit (Print (msg_not_found data_path)));
    (CKeyError, fun e => emit (Print (msg_missing_column e)));
    (CException, fun e =>
       (emit (Print (msg_unexpected e)) ;;;
        emit (Print "Please check the data and try again."))%py) ].

(** Lines 9-161. *)
Definition analyze_covid_data (data_path : string)
  (selected_countries : list string) : Py unit :=
  try_except_finally
    (analyze_body data_path selected_countries)
    (handlers data_path)
    (emit (Print msg_complete)).

End Pipeline.

(** ** A concrete parser and file system, for running the model *)

Definition digit (c : ascii) : option Z :=
  let n := Z.of_nat (nat_of_ascii c) in
  if ((48 <=? n) && (n <=? 57))%Z then Some (n - 48)%Z else None.

Fixpoint number (acc : Z) (cs : list ascii) : option Z :=
  match cs with
  | [] => Some acc
  | c :: cs' =>
      match digit c with
      | Some d => number (10 * acc + d)%Z cs'
      | None => None
      end
  end.

(** Days since 1970-01-01 of a proleptic Gregorian date. *)
Definition days_from_civil (y m d : Z) : Z :=
  let y' := (if m <=? 2 then y - 1 else y)%Z in
  let era := (y' / 400)%Z in
  let yoe := (y' - era * 400)%Z in
  let doy := ((153 * (if m >? 2 then m - 3 else m + 9) + 2) / 5 + d - 1)%Z in
  let doe := (yoe * 365 + yoe / 4 - yoe / 100 + doy)%Z in
  (era * 146097 + doe - 719468)%Z.

(** [YYYY-MM-DD], the format of the dataset. *)
Definition iso_date (s : string) : option Z :=
  match list_ascii_of_string s with
  | [y1; y2; y3; y4; "-"%char; m1; m2; "-"%char; d1; d2] =>
      match number 0 [y1; y2; y3; y4], number 0 [m1; m2], number 0 [d1; d2] with
      | Some y, Some m, Some d =>
          if ((1 <=? m) && (m <=? 12) && (1 <=? d) && (d <=? 31))%Z
          then Some (days_from_civil y m d) else None
      | _, _, _ => None
      end
  | _ => None
  end.

(** The header of a file with the nine columns of the dataset. *)
Definition owid_columns : list string :=
  ["location"; "date"; "total_cases"; "new_cases"; "total_deaths";
   "new_deaths"; "total_vaccinations"; "people_vaccinated"; "population"].

(** A row as read from such a file: the derived fields are not there yet. *)
Definition raw_row (loc : string) (d : DateCell)
  (tc nc td nd tv pv po : float) : Row :=
  mkRow loc d tc nc td nd tv pv po F64.nan F64.nan.

(** A file system with one file. *)
Definition one_file (path : string) (df : DataFrame) (p : string)
  : result DataFrame :=
  if String.eqb p path then Ok df
  else Raise (FileNotFoundError
                ("[Errno 2] No such file or directory: '" ++ p ++ "'")).

(** ** Orders used in the statements *)

(** [l1] is [l2] with some elements left out, the others in place. *)
Inductive Subseq {A : Type} : list A -> list A -> Prop :=
| Subseq_nil : Subseq [] []
| Subseq_skip : forall x l1 l2, Subseq l1 l2 -> Subseq l1 (x :: l2)
| Subseq_keep : forall x l1 l2, Subseq l1 l2 -> Subseq (x :: l1) (x :: l2).

(** Two parsed dates in chronological order. *)
Definition date_le (d1 d2 : DateCell) : Prop :=
  match d1, d2 with
  | Timestamp t1, Timestamp t2 => (t1 <= t2)%Z
  | _, _ => False
  end.

Definition is_timestamp (d : DateCell) : bool :=
  match d with Timestamp _ => true | _ => false end.

(** ** Sample data *)

(** A row with five deaths, no case, a thousand vaccinated and no
    population. *)
Definition row_zero_denominators : Row :=
  raw_row "A" (Timestamp 18628) F64.zero F64.zero (F64.of_Z 5) F64.zero
    F64.zero (F64.of_Z 1000) F64.zero.

Definition kenya_row : Row :=
  raw_row "Kenya" (DateStr "2021-01-01") (F64.of_Z 1) F64.nan F64.nan F64.nan
    F64.nan F64.nan (F64.of_Z 50).
Definition chile_row : Row :=
  raw_row "Chile" (DateStr "2021-01-01") (F64.of_Z 2) F64.nan F64.nan F64.nan
    F64.nan F64.nan (F64.of_Z 19).
Definition india_row : Row :=
  raw_row "India" (DateStr "2021-01-01") (F64.of_Z 3) F64.nan F64.nan F64.nan
    F64.nan F64.nan (F64.of_Z 1300).

Definition three_countries : DataFrame :=
  mkDF owid_columns [kenya_row; chile_row; india_row; kenya_row].


(** Entity "A" observed on three days; only [total_cases] varies. *)
Definition obs (loc day : string) (tc : float) : Row :=
  raw_row loc (DateStr day) tc F64.zero F64.zero F64.zero F64.zero F64.zero
    (F64.of_Z 1000).

(** 10 on 2021-01-01, missing on 2021-01-02, 30 on 2021-01-03, in date
    order. *)
Definition scenario_sorted : DataFrame :=
  mkDF owid_columns
    [obs "A" "2021-01-01" (F64.of_Z 10); obs "A" "2021-01-02" F64.nan;
     obs "A" "2021-01-03" (F64.of_Z 30)].

(** The same three rows with the undated gap listed last. *)
Definition scenario_unsorted : DataFrame :=
  mkDF owid_columns
    [obs "A" "2021-01-01" (F64.of_Z 10); obs "A" "2021-01-03" (F64.of_Z 30);
     obs "A" "2021-01-02" F64.nan].

(** Two known values of opposite sign whose difference overflows. *)
Definition overflowing_series : list float :=
  [F64.opp F64.max_float; F64.nan; F64.max_float].

(** A series that ends with a gap. *)
Definition trailing_gap : DataFrame :=
  mkDF owid_columns
    [obs "A" "2021-01-01" (F64.of_Z 10); obs "A" "2021-01-02" F64.nan].

(** Two entities interleaved. *)
Definition interleaved : list Row :=
  [obs "A" "2021-01-01" (F64.of_Z 10); obs "B" "2021-01-01" (F64.of_Z 500);
   obs "A" "2021-01-02" F64.nan; obs "B" "2021-01-02" F64.nan;
   obs "A" "2021-01-03" (F64.of_Z 30); obs "B" "2021-01-03" (F64.of_Z 700)].

Definition interleaved_other : list Row :=
  [obs "B" "2021-01-01" (F64.of_Z 1); obs "A" "2021-01-01" (F64.of_Z 10);
   obs "A" "2021-01-02" F64.nan; obs "A" "2021-01-03" (F64.of_Z 30);
   obs "C" "2021-01-03" (F64.of_Z 9)].

(** The column [col] of the rows of a successful result. *)
Definition column_of (col : NumCol) (r : result DataFrame) : list float :=
  match r with
  | Ok df => map (get col) (rows df)
  | Raise _ => []
  end.

(** ** What a cleaned table looks like *)

(** The header of a cleaned table has the nine source columns and the two
    derived ones. *)
Definition cleaned_columns : list string :=
  owid_columns ++ ["death_rate"; "vaccination_rate"].

(** A row of a selected location with a parsed date. *)
Definition keyed (selected : list string) (r : Row) : Prop :=
  In (location r) selected /\ is_timestamp (date r) = true.

Record cleaned_row (selected : list string) (r : Row) : Prop := {
  cr_location : In (location r) selected;
  cr_date : is_timestamp (date r) = true;
  cr_valid : Forall (fun c => F64.isnan (get c r) = false)
                    (Population :: numeric_cols);
  cr_death_rate : death_rate r = death_rate_of r;
  cr_vaccination_rate : vaccination_rate r = vaccination_rate_of r
}.

Definition cleaned (selected : list string) (df : DataFrame) : Prop :=
  Forall (fun name => has_col name df = true) cleaned_columns /\
  Forall (cleaned_row selected) (rows df).

(** The rows of the file that survive lines 36 and 39, in source order. *)
Definition kept_rows (selected : list string) (df : DataFrame) : list Row :=
  filter date_notna (filter (fun r => isin selected (location r)) (rows df)).

(** A table whose first row lacks its population, and one with gaps in
    every column. *)
Definition no_population : DataFrame :=
  mkDF owid_columns
    [raw_row "Kenya" (DateStr "2021-03-01") (F64.of_Z 100) (F64.of_Z 4)
       (F64.of_Z 2) F64.zero (F64.of_Z 7) (F64.of_Z 5) F64.nan;
     raw_row "Kenya" (DateStr "2021-03-02") (F64.of_Z 104) (F64.of_Z 4)
       (F64.of_Z 2) F64.zero (F64.of_Z 7) F64.zero F64.nan;
     raw_row "Peru" (DateStr "2021-03-02") (F64.of_Z 104) (F64.of_Z 4)
       (F64.of_Z 2) F64.zero (F64.of_Z 7) F64.zero (F64.of_Z 33)].

Definition gappy : DataFrame :=
  mkDF owid_columns
    [raw_row "Kenya" DateNaN F64.nan F64.nan F64.nan F64.nan F64.nan F64.nan
       F64.nan;
     raw_row "Kenya" (DateStr "2021-03-01") F64.nan F64.nan F64.nan F64.nan
       F64.nan F64.nan F64.nan;
     raw_row "India" (DateStr "2021-03-01") (F64.of_Z 8) F64.nan (F64.of_Z 1)
       F64.nan F64.nan F64.nan (F64.of_Z 1300);
     raw_row "Peru" (DateStr "2021-03-02") F64.nan F64.nan F64.nan F64.nan
       F64.nan F64.nan (F64.of_Z 33);
     raw_row "India" (DateStr "2021-03-02") F64.nan (F64.of_Z 3) F64.nan
       F64.nan F64.nan (F64.of_Z 6) F64.nan;
     raw_row "India" (DateStr "2021-03-03") (F64.of_Z 12) F64.nan F64.nan
       F64.nan F64.nan F64.nan (F64.of_Z 1300)].

(** How a row of the file and the cleaned row it becomes are related. *)
Definition traces (parse : string -> option Z) (fill : float -> float)
  (r0 r : Row) : Prop :=
  location r = location r0 /\
  to_datetime_cell parse (date r0) = Ok (date r) /\
  population r = fill (population r0).

(** Two days of one entity, the later day listed first. *)
Definition out_of_order : DataFrame :=
  mkDF owid_columns
    [raw_row "A" (DateStr "2021-01-02") (F64.of_Z 20) (F64.of_Z 10)
       (F64.of_Z 1) F64.zero (F64.of_Z 7) (F64.of_Z 6) (F64.of_Z 1000);
     raw_row "A" (DateStr "2021-01-01") (F64.of_Z 10) (F64.of_Z 10)
       (F64.of_Z 1) F64.zero (F64.of_Z 3) (F64.of_Z 2) (F64.of_Z 1000)].

(** The keys of [groupby] come in strictly increasing order. *)
Definition key_lt (a b : string) : Prop := String.compare a b = Lt.

(** ** The trace of a run, spelled out *)

(** The curves of one figure. *)
Definition plot_series (col : NumCol) (df : DataFrame) (countries : list string)
  : list (string * list (DateCell * float)) :=
  map (fun country =>
         (country, map (fun r => (date r, get col r)) (group country (rows df))))
      countries.

(** Everything shown up to line 127, given the table read ([df]) and the
    filtered table after lines 50, 92 and 117 ([d50], [d92], [d117]). *)
Definition report_until_summary (data_path : string) (selected : list string)
  (df d50 d92 d117 : DataFrame) : list event :=
  [ Print ("Data loaded successfully from " ++ data_path);
    Print (nl ++ "--- Data Exploration ---");
    PrintColumns (columns df);
    Print "First 5 rows:";
    PrintHead (firstn 5 (rows df));
    Print "Missing values before cleaning:";
    PrintNullCounts df;
    Print (nl ++ "Missing values after cleaning:");
    PrintNullCounts d50;
    Print (nl ++ "Data cleaning complete.");
    Print (nl ++ "--- Exploratory Data Analysis ---");
    LinePlot "Total COVID-19 Cases Over Time"
      (plot_series TotalCases d50 selected);
    LinePlot "Total COVID-19 Deaths Over Time"
      (plot_series TotalDeaths d50 selected);
    LinePlot "Daily New COVID-19 Cases" (plot_series NewCases d50 selected);
    LinePlot "COVID-19 Death Rate (Total Deaths / Total Cases)"
      (plot_series DeathRate d92 selected);
    Print (nl ++ "--- Vaccination Analysis ---");
    LinePlot "Total COVID-19 Vaccinations Over Time"
      (plot_series TotalVaccinations d92 selected);
    LinePlot "Percentage of Population Vaccinated Over Time"
      (plot_series VaccinationRate d117 selected) ].

(** Lines 146-151. *)
Definition insights : list event :=
  [ Print (nl ++ "--- Insights ---");
    Print (nl ++ "Key Insights:");
    Print "* USA has the highest total cases among the selected countries.";
    Print "* India experienced a surge in new cases around mid-2021.";
    Print "* Kenya's vaccination rate is lower compared to USA and India.";
    Print "* The death rate varies across countries, indicating different healthcare outcomes." ].

Definition is_bar_plot (e : event) : bool :=
  match e with BarPlot _ _ => true | _ => false end.

(** What the handler of an exception prints (lines 153-159). *)
Definition handler_output (data_path : string) (e : exn) : list event :=
  match e with
  | FileNotFoundError _ => [Print (msg_not_found data_path)]
  | KeyError _ => [Print (msg_missing_column e)]
  | ValueError _ | OtherException _ =>
      [Print (msg_unexpected e); Print "Please check the data and try again."]
  end.

(** The bars of line 138 when line 133 succeeds: each location of the
    summary against the constant at its position. *)
Definition snapshot_bars (summary : list Row) : list (string * float) :=
  map (fun rp => (location (fst rp),
                  F64.mul (F64.div (people_vaccinated (fst rp)) (snd rp)) hundred))
      (combine summary snapshot_population).

Definition msg_length_mismatch (n : nat) : string :=
  "Length of values (3) does not match length of index (" ++ show_nat n ++ ")".

(** A file without the [population] column, one with a date that does not
    parse, and a file system where the path is missing. *)
Definition no_population_column : DataFrame :=
  mkDF ["location"; "date"; "total_cases"; "new_cases"; "total_deaths";
        "new_deaths"; "total_vaccinations"; "people_vaccinated"]
       (rows three_countries).

Definition bad_date : DataFrame :=
  mkDF owid_columns [obs "A" "yesterday" (F64.of_Z 1)].

Definition no_file (p : string) : result DataFrame :=
  Raise (FileNotFoundError ("[Errno 2] No such file or directory: '" ++ p ++ "'")).

(** One day of three countries, with their own populations. *)
Definition vaccinated (loc : string) (pv po : Z) : Row :=
  raw_row loc (DateStr "2021-06-01") (F64.of_Z 1000) (F64.of_Z 10)
    (F64.of_Z 20) (F64.of_Z 1) (F64.of_Z 5000) (F64.of_Z pv) (F64.of_Z po).

Definition three_vaccinated : DataFrame :=
  mkDF owid_columns
    [vaccinated "Kenya" 10937500 53000000;
     vaccinated "India" 660000000 1380000000;
     vaccinated "Chile" 12500000 19000000].

(** 12.5, 0.78125 and 200 are float64 values. *)
Definition f_12_5 : float := F64.div (F64.of_Z 25) (F64.of_Z 2).
Definition f_0_78125 : float := F64.div (F64.of_Z 25) (F64.of_Z 32).


(** ** Beyond the cleaning contract: the rest of the script *)

(** What one column assignment leaves alone: the location, the date and
    every other column of the row. *)
Definition agree_except (col : NumCol) (r r' : Row) : Prop :=
  location r' = location r /\ date r' = date r /\
  forall c, c <> col -> get c r' = get c r.

(** The source columns that hold measurements. *)
Definition source_cols : list NumCol := Population :: numeric_cols.

(** A known value of the file is found again in the cleaned row. *)
Definition keeps_known (r0 r : Row) : Prop :=
  location r = location r0 /\
  forall c, In c source_cols -> F64.isnan (get c r0) = false ->
            get c r = get c r0.

(** Rows of one location, gaps at both ends of [total_cases]. *)
Definition edge_gaps : DataFrame :=
  mkDF owid_columns
    [obs "A" "2021-01-01" F64.nan; obs "B" "2021-01-01" F64.nan;
     obs "A" "2021-01-02" (F64.of_Z 7); obs "A" "2021-01-03" F64.nan;
     obs "B" "2021-01-02" F64.nan; obs "A" "2021-01-04" (F64.of_Z 9);
     obs "A" "2021-01-05" F64.nan].

(** A location without any known [total_cases], with and without deaths. *)
Definition no_cases : DataFrame :=
  mkDF owid_columns
    [raw_row "Kenya" (DateStr "2021-02-01") F64.nan F64.nan F64.nan F64.nan
       F64.nan F64.nan (F64.of_Z 50);
     raw_row "Kenya" (DateStr "2021-02-02") F64.nan F64.nan (F64.of_Z 3)
       F64.nan F64.nan F64.nan (F64.of_Z 50)].

(** The date of the row is one [pd.to_datetime] accepts. *)
Definition parses (parse : string -> option Z) (r : Row) : Prop :=
  match date r with
  | DateStr s => parse s <> None
  | Timestamp _ | DateNaN => True
  end.

(** The table [three_countries] with, in addition, a row of a country that
    is not selected whose date does not parse and a selected row without
    date. *)
Definition three_countries_noise : DataFrame :=
  mkDF owid_columns
    (obs "Peru" "n/a" (F64.of_Z 77)
     :: raw_row "Kenya" DateNaN (F64.of_Z 5) F64.nan F64.nan F64.nan F64.nan
          F64.nan F64.nan
     :: rows three_countries).

(** Lines 23-32: what is shown before the cleaning starts. *)
Definition exploration (data_path : string) (df : DataFrame) : list event :=
  [ Print ("Data loaded successfully from " ++ data_path);
    Print (nl ++ "--- Data Exploration ---");
    PrintColumns (columns df);
    Print "First 5 rows:";
    PrintHead (firstn 5 (rows df));
    Print "Missing values before cleaning:";
    PrintNullCounts df ].

(** The events that are figures ([plt.show()]). *)
Definition is_figure (e : event) : bool :=
  match e with
  | LinePlot _ _ | BarPlot _ _ => true
  | _ => false
  end.

(** The date of the row is a string [pd.to_datetime] rejects. *)
Definition unparseable (parse : string -> option Z) (r : Row) : Prop :=
  exists s, date r = DateStr s /\ parse s = None.

(** A file whose header lacks two numeric columns and whose second kept
    row has a date that does not parse. *)
Definition bad_date_few_columns : DataFrame :=
  mkDF ["location"; "date"; "total_cases"]
       [obs "A" "2021-01-01" (F64.of_Z 1); obs "B" "soon" (F64.of_Z 1);
        obs "A" "tomorrow" (F64.of_Z 2)].

(** Everything shown up to line 114: the events of [report_until_summary]
    before its last figure; they do not depend on the table of line 117. *)
Definition report_until_vaccination (data_path : string)
  (selected : list string) (df d50 d92 : DataFrame) : list event :=
  firstn 17 (report_until_summary data_path selected df d50 d92 d92).

(** The six line charts of a run, all drawn from one table. *)
Definition line_charts (selected : list string) (d : DataFrame) : list event :=
  [ LinePlot "Total COVID-19 Cases Over Time" (plot_series TotalCases d selected);
    LinePlot "Total COVID-19 Deaths Over Time"
      (plot_series TotalDeaths d selected);
    LinePlot "Daily New COVID-19 Cases" (plot_series NewCases d selected);
    LinePlot "COVID-19 Death Rate (Total Deaths / Total Cases)"
      (plot_series DeathRate d selected);
    LinePlot "Total COVID-19 Vaccinations Over Time"
      (plot_series TotalVaccinations d selected);
    LinePlot "Percentage of Population Vaccinated Over Time"
      (plot_series VaccinationRate d selected) ].

(** The first line of the static insights (line 146). *)
Definition insights_header : event := Print (nl ++ "--- Insights ---").

(** ** The entry point of the script (lines 163-171) *)

Definition data_file_path : string := "owid-covid-data.csv".

Definition countries_to_analyze : list string :=
  ["Kenya"; "United States"; "India"].

(** [if __name__ == "__main__": analyze_covid_data(data_file_path,
    countries_to_analyze)], with pandas' parser and the file system. *)
Definition main (parse_datetime : string -> option Z)
  (read_csv : string -> result DataFrame) : Py unit :=
  analyze_covid_data parse_datetime read_csv data_file_path countries_to_analyze.

(** The latest count of vaccinated people of a location in a table. *)
Definition latest_vaccinated (k : string) (d : DataFrame) : float :=
  people_vaccinated (last_of_group k (group k (rows d))).

(** One day of the three countries of the script, and the same rows in
    another interleaving. *)
Definition script_countries : DataFrame :=
  mkDF owid_columns
    [vaccinated "United States" 165000000 331000000;
     vaccinated "Kenya" 10937500 53000000;
     vaccinated "India" 200000000 1380000000;
     vaccinated "Kenya" 20625000 53000000].

Definition script_countries_regrouped : list Row :=
  [vaccinated "Kenya" 10937500 53000000;
   vaccinated "Kenya" 20625000 53000000;
   vaccinated "India" 200000000 1380000000;
   vaccinated "United States" 165000000 331000000].

(** 200, 6.25 and 11.785714285714286 (165/14 rounded to float64). *)
Definition f_6_25 : float := F64.div (F64.of_Z 25) (F64.of_Z 4).
Definition f_165_14 : float :=
  F64.mul (F64.div (F64.of_Z 165000000) (F64.of_Z 1400000000)) (F64.of_Z 100).
(** * Properties *)

(** ** Rows *)

Lemma get_set_same c v r : get c (set c v r) = v.
Proof. destruct r, c; reflexivity. Qed.

Lemma get_set_other c c' v r : c <> c' -> get c' (set c v r) = get c' r.
Proof. destruct r, c, c'; try reflexivity; intros H; now elim H. Qed.

Lemma location_set c v r : location (set c v r) = location r.
Proof. destruct r, c; reflexivity. Qed.

Lemma date_set c v r : date (set c v r) = date r.
Proof. destruct r, c; reflexivity. Qed.

Lemma set_get c r : set c (get c r) r = r.
Proof. destruct r, c; reflexivity. Qed.

Lemma location_set_date d r : location (set_date d r) = location r.
Proof. destruct r; reflexivity. Qed.

Lemma date_set_date d r : date (set_date d r) = d.
Proof. destruct r; reflexivity. Qed.

Lemma get_set_date c d r : get c (set_date d r) = get c r.
Proof. destruct r, c; reflexivity. Qed.

Lemma set_date_same r : set_date (date r) r = r.
Proof. destruct r; reflexivity. Qed.

Lemma isin_In values s : isin values s = true <-> In s values.
Proof.
  unfold isin. rewrite existsb_exists. split.
  - intros [x [Hx Heq]]. apply String.eqb_eq in Heq. now subst.
  - intros H. exists s. split; [assumption | apply String.eqb_refl].
Qed.

Lemma filter_Subseq {A} (p : A -> bool) (l : list A) : Subseq (filter p l) l.
Proof.
  induction l as [|x l IH]; simpl.
  - constructor.
  - destruct (p x); now constructor.
Qed.

(** ** Division (C5) *)

Lemma div_nan_r x : F64.div x F64.nan = F64.nan.
Proof. destruct x; reflexivity. Qed.

Lemma div_zero_r x s :
  F64.div x (SpecFloat.S754_zero s) =
  if F64.isnan x || F64.is_zero x then F64.nan
  else SpecFloat.S754_infinity (xorb (F64.signbit x) s).
Proof. destruct x; reflexivity. Qed.

Lemma mul_hundred_nan : F64.mul F64.nan hundred = F64.nan.
Proof. reflexivity. Qed.

Lemma mul_hundred_inf s :
  F64.mul (SpecFloat.S754_infinity s) hundred = SpecFloat.S754_infinity s.
Proof. destruct s; reflexivity. Qed.




(** ** The filter (C6) *)

Lemma isin_ext values values' :
  (forall s, In s values <-> In s values') ->
  forall s, isin values s = isin values' s.
Proof.
  intros H s.
  destruct (isin values s) eqn:E1, (isin values' s) eqn:E2; try reflexivity.
  - apply isin_In, H, isin_In in E1. congruence.
  - apply isin_In, H, isin_In in E2. congruence.
Qed.

Lemma filter_selected_rows selected df df' :
  filter_selected selected df = Ok df' ->
  columns df' = columns df /\
  rows df' = filter (fun r => isin selected (location r)) (rows df).
Proof.
  unfold filter_selected, require. destruct (has_col "location" df); simpl.
  - intros H. injection H as <-. split; reflexivity.
  - discriminate.
Qed.

(** C6: line 36 keeps exactly the rows whose location is in the selected
    list, every kept row is a row of the source and they stay in source
    order, and the result does not depend on the order of the list. *)
Theorem C6_filter_selected_exact :
  forall (selected : list string) (df df' : DataFrame),
    filter_selected selected df = Ok df' ->
    rows df' =
      filter (fun r => if in_dec string_dec (location r) selected
                       then true else false) (rows df) /\
    (forall r, In r (rows df') <-> In r (rows df) /\ In (location r) selected) /\
    Subseq (rows df') (rows df) /\
    (forall selected',
       Permutation selected selected' ->
       filter_selected selected' df = Ok df').
Proof.
  intros selected df df' H.
  pose proof (filter_selected_rows _ _ _ H) as [Hc Hr].
  split; [|split; [|split]].
  - rewrite Hr. apply filter_ext. intros r.
    destruct (in_dec string_dec (location r) selected) as [Hin|Hout].
    + now apply isin_In.
    + destruct (isin selected (location r)) eqn:E; [|reflexivity].
      apply isin_In in E. contradiction.
  - intros r. rewrite Hr, filter_In, isin_In. reflexivity.
  - rewrite Hr. apply filter_Subseq.
  - intros selected' Hp. revert H. unfold filter_selected, require.
    destruct (has_col "location" df); simpl; [|discriminate].
    intros H. injection H as <-. f_equal. unfold boolean_mask. f_equal.
    apply filter_ext. intros r. apply isin_ext. intros s. split; intros Hs.
    + eapply Permutation_in; [apply Permutation_sym|]; eassumption.
    + eapply Permutation_in; eassumption.
Qed.

Lemma C6_filter_selected_witness :
  rows (mkDF owid_columns [kenya_row; india_row; kenya_row]) =
    filter (fun r => if in_dec string_dec (location r) ["India"; "Kenya"]
                     then true else false) (rows three_countries) /\
  filter_selected ["Kenya"; "India"] three_countries =
    Ok (mkDF owid_columns [kenya_row; india_row; kenya_row]).
Proof.
  assert (H : filter_selected ["India"; "Kenya"] three_countries =
              Ok (mkDF owid_columns [kenya_row; india_row; kenya_row]))
    by reflexivity.
  destruct (C6_filter_selected_exact _ _ _ H) as (Hr & _ & _ & Hp).
  split; [exact Hr|].
  apply Hp. apply perm_swap.
Defined.

(** ** [Series.interpolate] *)

Section Interpolate.

Implicit Types (ys : list float) (pts : list (Z * float)).

Lemma fill_invalid_length first pts i ys :
  length (fill_invalid first pts i ys) = length ys.
Proof.
  revert i. induction ys as [|y ys IH]; intros i; simpl; [reflexivity|].
  now rewrite IH.
Qed.

Lemma interpolate_length ys : length (interpolate ys) = length ys.
Proof.
  unfold interpolate. destruct (valid_points 0 ys) as [|[first y0] rest].
  - reflexivity.
  - apply fill_invalid_length.
Qed.

(** Entry by entry. *)
Lemma fill_invalid_nth first pts i ys n y :
  nth_error ys n = Some y ->
  nth_error (fill_invalid first pts i ys) n =
  Some (if F64.isnan y
        then (if (i + Z.of_nat n <? first)%Z then F64.nan
              else np_interp (i + Z.of_nat n) pts)
        else y).
Proof.
  revert i n. induction ys as [|y' ys IH]; intros i n H.
  - destruct n; discriminate.
  - destruct n as [|n]; simpl in *.
    + injection H as ->. now rewrite Z.add_0_r.
    + rewrite (IH (i + 1)%Z n H).
      replace (i + 1 + Z.of_nat n)%Z with (i + Z.pos (Pos.of_succ_nat n))%Z
        by lia.
      reflexivity.
Qed.

Lemma fill_invalid_valid first pts i ys :
  Forall (fun y => F64.isnan y = false) ys ->
  fill_invalid first pts i ys = ys.
Proof.
  intros H. revert i. induction H as [|y ys Hy _ IH]; intros i; simpl.
  - reflexivity.
  - now rewrite Hy, IH.
Qed.

(** A series without NaN is left as it is. *)
Lemma interpolate_valid ys :
  Forall (fun y => F64.isnan y = false) ys -> interpolate ys = ys.
Proof.
  intros H. unfold interpolate.
  destruct (valid_points 0 ys) as [|[first y0] rest]; [reflexivity|].
  now apply fill_invalid_valid.
Qed.

Lemma valid_points_app i ys ys' :
  valid_points i (ys ++ ys') =
  valid_points i ys ++ valid_points (i + Z.of_nat (length ys)) ys'.
Proof.
  revert i. induction ys as [|y ys IH]; intros i.
  - simpl. now rewrite Z.add_0_r.
  - cbn [app valid_points length]. rewrite IH.
    replace (i + 1 + Z.of_nat (length ys))%Z
      with (i + Z.of_nat (S (length ys)))%Z by lia.
    now destruct (F64.isnan y).
Qed.

Lemma valid_points_nans i k : valid_points i (repeat F64.nan k) = [].
Proof. revert i. induction k as [|k IH]; intros i; simpl; auto. Qed.

Lemma valid_points_bounds i ys :
  Forall (fun p => (i <= fst p < i + Z.of_nat (length ys))%Z)
         (valid_points i ys).
Proof.
  revert i. induction ys as [|y ys IH]; intros i; simpl; [constructor|].
  assert (Forall (fun p => (i <= fst p < i + Z.pos (Pos.of_succ_nat (length ys)))%Z)
                 (valid_points (i + 1) ys)) as Htl.
  { eapply Forall_impl; [|apply IH]. simpl. intros p Hp. lia. }
  destruct (F64.isnan y); [assumption|].
  constructor; [simpl; lia | assumption].
Qed.

(** On the right of every knot: the last ordinate. *)
Lemma np_interp_right x pts a v :
  Forall (fun p => (fst p <= x)%Z) pts -> (a <= x)%Z ->
  np_interp x (pts ++ [(a, v)]) = v.
Proof.
  induction pts as [|[a0 y0] pts IH]; intros H Ha.
  - reflexivity.
  - inversion H as [|? ? H0 Htl]; subst. simpl in H0.
    cbn [app np_interp].
    destruct (pts ++ [(a, v)]) as [|[b yb] rest'] eqn:E.
    + destruct pts; discriminate.
    + assert (b <= x)%Z as Hb.
      { destruct pts as [|[b1 y1] pts']; simpl in E.
        - injection E as <- _ _. assumption.
        - injection E as <- _ _. inversion Htl; subst. assumption. }
      replace (x <? a0)%Z with false by (symmetry; apply Z.ltb_ge; lia).
      replace (x <? b)%Z with false by (symmetry; apply Z.ltb_ge; lia).
      now apply IH.
Qed.

(** Strictly between two consecutive knots: [interp_between] them. *)
Lemma np_interp_inside x pts a ya b yb pts' :
  Forall (fun p => (fst p <= x)%Z) pts -> (a <= x < b)%Z ->
  np_interp x (pts ++ (a, ya) :: (b, yb) :: pts') =
  interp_between a ya b yb x.
Proof.
  induction pts as [|[a0 y0] pts IH]; intros H Hx.
  - cbn [app np_interp].
    replace (x <? a)%Z with false by (symmetry; apply Z.ltb_ge; lia).
    replace (x <? b)%Z with true by (symmetry; apply Z.ltb_lt; lia).
    reflexivity.
  - inversion H as [|? ? H0 Htl]; subst. simpl in H0.
    cbn [app np_interp].
    destruct (pts ++ (a, ya) :: (b, yb) :: pts') as [|[b0 y0'] rest'] eqn:E.
    + destruct pts; discriminate.
    + assert (b0 <= x)%Z as Hb.
      { destruct pts as [|[b1 y1] pts'']; simpl in E.
        - injection E as <- _ _. lia.
        - injection E as <- _ _. inversion Htl; subst. assumption. }
      replace (x <? a0)%Z with false by (symmetry; apply Z.ltb_ge; lia).
      replace (x <? b0)%Z with false by (symmetry; apply Z.ltb_ge; lia).
      now apply IH.
Qed.

Lemma nth_error_repeat_nan k j :
  j < k -> nth_error (repeat F64.nan k) j = Some F64.nan.
Proof.
  revert j. induction k as [|k IH]; intros j H; [lia|].
  destruct j; simpl; [reflexivity | apply IH; lia].
Qed.

(** Leading gap: the NaN before the first valid entry stay. *)
Lemma interpolate_leading k ys n :
  n < k ->
  nth_error (interpolate (repeat F64.nan k ++ ys)) n = Some F64.nan.
Proof.
  intros Hn.
  assert (nth_error (repeat F64.nan k ++ ys) n = Some F64.nan) as Hnth.
  { rewrite nth_error_app1 by (rewrite repeat_length; lia).
    now apply nth_error_repeat_nan. }
  unfold interpolate.
  destruct (valid_points 0 (repeat F64.nan k ++ ys)) as [|[first y0] rest] eqn:E.
  - assumption.
  - rewrite (fill_invalid_nth _ _ _ _ _ _ Hnth). simpl.
    rewrite valid_points_app, valid_points_nans, repeat_length in E.
    simpl in E.
    pose proof (valid_points_bounds (Z.of_nat k) ys) as Hb.
    rewrite E in Hb. inversion Hb as [|? ? H0 _]; subst. simpl in H0.
    replace (Z.of_nat n <? first)%Z with true
      by (symmetry; apply Z.ltb_lt; lia).
    reflexivity.
Qed.

Lemma valid_points_le_length ys :
  Forall (fun p => (fst p <= Z.of_nat (length ys))%Z) (valid_points 0 ys).
Proof.
  eapply Forall_impl; [|apply valid_points_bounds]. simpl. intros p Hp. lia.
Qed.

(** Trailing gap: the last valid entry is carried forward. *)
Lemma interpolate_trailing pre v k j :
  F64.isnan v = false -> j < k ->
  nth_error (interpolate (pre ++ v :: repeat F64.nan k)) (length pre + 1 + j)
  = Some v.
Proof.
  intros Hv Hj.
  assert (nth_error (pre ++ v :: repeat F64.nan k) (length pre + 1 + j)
          = Some F64.nan) as Hnth.
  { rewrite nth_error_app2 by lia.
    replace (length pre + 1 + j - length pre) with (S j) by lia.
    simpl. now apply nth_error_repeat_nan. }
  unfold interpolate.
  assert (valid_points 0 (pre ++ v :: repeat F64.nan k) =
          valid_points 0 pre ++ [(Z.of_nat (length pre), v)]) as E.
  { rewrite valid_points_app. cbn [valid_points]. rewrite Hv.
    now rewrite valid_points_nans. }
  rewrite E.
  destruct (valid_points 0 pre ++ [(Z.of_nat (length pre), v)])
    as [|[first y0] rest] eqn:E'.
  { destruct (valid_points 0 pre); discriminate. }
  rewrite (fill_invalid_nth _ _ _ _ _ _ Hnth).
  change (F64.isnan F64.nan) with true. cbv iota. rewrite Z.add_0_l.
  assert (first <= Z.of_nat (length pre))%Z as Hfirst.
  { pose proof (valid_points_le_length pre) as Hb.
    destruct (valid_points 0 pre) as [|[a0 y0'] pts]; simpl in E'.
    - injection E' as <- _ _. lia.
    - injection E' as <- _ _. inversion Hb; subst. assumption. }
  replace (Z.of_nat (length pre + 1 + j) <? first)%Z with false
    by (symmetry; apply Z.ltb_ge; lia).
  rewrite <- E'. f_equal. apply np_interp_right; [|lia].
  eapply Forall_impl; [|apply valid_points_le_length].
  simpl. intros p Hp. lia.
Qed.

(** Interior gap: [interp_between] the valid entries around it, with
    their positions as abscissae. *)
Lemma interpolate_interior pre ya k yb post j :
  F64.isnan ya = false -> F64.isnan yb = false -> j < k ->
  nth_error (interpolate (pre ++ ya :: repeat F64.nan k ++ yb :: post))
            (length pre + 1 + j)
  = Some (interp_between (Z.of_nat (length pre)) ya
            (Z.of_nat (length pre + 1 + k)) yb
            (Z.of_nat (length pre + 1 + j))).
Proof.
  intros Ha Hb Hj.
  assert (nth_error (pre ++ ya :: repeat F64.nan k ++ yb :: post)
                    (length pre + 1 + j) = Some F64.nan) as Hnth.
  { rewrite nth_error_app2 by lia.
    replace (length pre + 1 + j - length pre) with (S j) by lia.
    simpl. rewrite nth_error_app1 by (rewrite repeat_length; lia).
    now apply nth_error_repeat_nan. }
  unfold interpolate.
  assert (valid_points 0 (pre ++ ya :: repeat F64.nan k ++ yb :: post) =
          valid_points 0 pre ++
          (Z.of_nat (length pre), ya) :: (Z.of_nat (length pre + 1 + k), yb)
          :: valid_points (Z.of_nat (length pre + 1 + k) + 1) post) as E.
  { rewrite valid_points_app. cbn [valid_points]. rewrite Ha.
    rewrite valid_points_app, valid_points_nans, repeat_length.
    cbn [valid_points app]. rewrite Hb.
    replace (0 + Z.of_nat (length pre) + 1 + Z.of_nat k)%Z
      with (Z.of_nat (length pre + 1 + k)) by lia.
    reflexivity. }
  rewrite E. clear E.
  set (Q := valid_points (Z.of_nat (length pre + 1 + k) + 1) post).
  destruct (valid_points 0 pre ++ (Z.of_nat (length pre), ya)
            :: (Z.of_nat (length pre + 1 + k), yb) :: Q)
    as [|[first y0] rest] eqn:E'.
  { destruct (valid_points 0 pre); discriminate. }
  rewrite (fill_invalid_nth _ _ _ _ _ _ Hnth).
  change (F64.isnan F64.nan) with true. cbv iota. rewrite Z.add_0_l.
  assert (first <= Z.of_nat (length pre))%Z as Hfirst.
  { pose proof (valid_points_le_length pre) as Hle.
    destruct (valid_points 0 pre) as [|[a0 y0'] pts]; simpl in E'.
    - injection E' as <- _ _. lia.
    - injection E' as <- _ _. inversion Hle; subst. assumption. }
  replace (Z.of_nat (length pre + 1 + j) <? first)%Z with false
    by (symmetry; apply Z.ltb_ge; lia).
  rewrite <- E'. f_equal. apply np_interp_inside; [|lia].
  eapply Forall_impl; [|apply valid_points_le_length].
  simpl. intros p Hp. lia.
Qed.

(** Valid entries are kept. *)
Lemma interpolate_keeps_valid ys n y :
  nth_error ys n = Some y -> F64.isnan y = false ->
  nth_error (interpolate ys) n = Some y.
Proof.
  intros Hnth Hy. unfold interpolate.
  destruct (valid_points 0 ys) as [|[first y0] rest]; [assumption|].
  rewrite (fill_invalid_nth _ _ _ _ _ _ Hnth). now rewrite Hy.
Qed.

End Interpolate.

(** ** The grouped assignment of line 47 *)

Section GroupedAssignment.

Variable col : NumCol.

Lemma group_cons k r rs :
  group k (r :: rs) =
  if String.eqb (location r) k then r :: group k rs else group k rs.
Proof. reflexivity. Qed.

Lemma group_app k rs rs' : group k (rs ++ rs') = group k rs ++ group k rs'.
Proof. apply filter_app. Qed.

Lemma group_In k r rs : In r (group k rs) <-> In r rs /\ location r = k.
Proof. unfold group. rewrite filter_In, String.eqb_eq. reflexivity. Qed.

Lemma write_col_cons v vs r rs :
  write_col col (v :: vs) (r :: rs) = set col v r :: write_col col vs rs.
Proof. reflexivity. Qed.

Lemma write_col_nil vs : write_col col vs [] = [].
Proof. reflexivity. Qed.

Lemma skipn_cons_nth {A} (l : list A) n d :
  n < length l -> skipn n l = nth n l d :: skipn (S n) l.
Proof.
  revert n. induction l as [|x l IH]; intros n H; simpl in H; [lia|].
  destruct n as [|n]; [reflexivity|].
  change (skipn (S n) (x :: l)) with (skipn n l).
  rewrite (IH n) by lia. reflexivity.
Qed.

(** With [pre] already passed, the rows of group [k] still to come
    receive the rest of the group's interpolated series. *)
Lemma assign_from_group k pre rest :
  group k (assign_from col (pre ++ rest) (length pre) rest) =
  write_col col
    (skipn (length (group k pre))
       (interpolate (map (get col) (group k (pre ++ rest)))))
    (group k rest).
Proof.
  revert pre. induction rest as [|r rest IH]; intros pre.
  - reflexivity.
  - cbn [assign_from]. rewrite !group_cons, location_set.
    specialize (IH (pre ++ [r])).
    rewrite <- app_assoc in IH. cbn [app] in IH.
    rewrite length_app in IH. cbn [length] in IH.
    replace (length pre + 1) with (S (length pre)) in IH by lia.
    rewrite IH. rewrite (group_app k pre [r]), length_app.
    rewrite group_cons.
    destruct (String.eqb (location r) k) eqn:E.
    + apply String.eqb_eq in E. subst k.
      rewrite firstn_app, Nat.sub_diag, firstn_all, firstn_O, app_nil_r.
      set (series := interpolate (map (get col) (group (location r) (pre ++ r :: rest)))).
      assert (length (group (location r) pre) < length series) as Hlt.
      { unfold series. rewrite interpolate_length, length_map, group_app.
        rewrite length_app, group_cons, String.eqb_refl. simpl. lia. }
      rewrite (skipn_cons_nth series _ F64.nan Hlt).
      rewrite write_col_cons. cbn [group filter length].
      replace (length (group (location r) pre) + 1)
        with (S (length (group (location r) pre))) by lia.
      reflexivity.
    + cbn [group filter length]. now rewrite Nat.add_0_r.
Qed.

(** The rows of a group, in source order, receive the interpolation of
    the group's own column, in source order. *)
Lemma groupby_interpolate_group k rs :
  group k (groupby_interpolate col rs) =
  write_col col (interpolate (map (get col) (group k rs))) (group k rs).
Proof. exact (assign_from_group k [] rs). Qed.

(** Row by row, only column [col] is written. *)
Lemma assign_from_rows orig p rest :
  Forall2 (fun r r' => exists v, r' = set col v r)
          rest (assign_from col orig p rest).
Proof.
  revert p. induction rest as [|r rest IH]; intros p; cbn [assign_from].
  - constructor.
  - constructor; [eauto | apply IH].
Qed.

Lemma assign_from_valid pre rest :
  Forall (fun r => F64.isnan (get col r) = false) (pre ++ rest) ->
  assign_from col (pre ++ rest) (length pre) rest = rest.
Proof.
  revert pre. induction rest as [|r rest IH]; intros pre H.
  - reflexivity.
  - cbn [assign_from].
    specialize (IH (pre ++ [r])).
    rewrite <- app_assoc in IH. cbn [app] in IH.
    rewrite length_app in IH. cbn [length] in IH.
    replace (length pre + 1) with (S (length pre)) in IH by lia.
    rewrite (IH H). f_equal.
    rewrite firstn_app, Nat.sub_diag, firstn_all, firstn_O, app_nil_r.
    rewrite interpolate_valid.
    + rewrite group_app, group_cons, String.eqb_refl, map_app.
      rewrite app_nth2 by (rewrite length_map; lia).
      rewrite length_map, Nat.sub_diag. cbn [map nth]. apply set_get.
    + apply Forall_map. apply Forall_forall. intros r' Hr'.
      apply group_In in Hr' as [Hr' _].
      rewrite Forall_forall in H. now apply H.
Qed.

(** A column without NaN is left as it is. *)
Lemma groupby_interpolate_valid rs :
  Forall (fun r => F64.isnan (get col r) = false) rs ->
  groupby_interpolate col rs = rs.
Proof. exact (assign_from_valid [] rs). Qed.

End GroupedAssignment.

Lemma map_get_write_col col vs rs :
  length vs = length rs -> map (get col) (write_col col vs rs) = vs.
Proof.
  revert vs. induction rs as [|r rs IH]; intros [|v vs] H; try discriminate.
  - reflexivity.
  - rewrite write_col_cons. cbn [map]. rewrite get_set_same.
    f_equal. apply IH. simpl in H. lia.
Qed.

(** The new column of a group is the interpolation of its old column. *)
Lemma groupby_interpolate_series col k rs :
  map (get col) (group k (groupby_interpolate col rs)) =
  interpolate (map (get col) (group k rs)).
Proof.
  rewrite groupby_interpolate_group. apply map_get_write_col.
  now rewrite interpolate_length, length_map.
Qed.

(** ** Interpolation (C2, C3) *)




Lemma interpolate_col_group col k df1 df2 d1 d2 :
  group k (rows df1) = group k (rows df2) ->
  interpolate_col col df1 = Ok d1 -> interpolate_col col df2 = Ok d2 ->
  group k (rows d1) = group k (rows d2).
Proof.
  unfold interpolate_col. intros Hg H1 H2.
  destruct (has_col (col_name col) df1); [|discriminate].
  destruct (has_col (col_name col) df2); [|discriminate].
  injection H1 as <-. injection H2 as <-. cbn [rows].
  now rewrite !groupby_interpolate_group, Hg.
Qed.

Lemma interpolate_cols_group cols k : forall df1 df2 d1 d2,
  group k (rows df1) = group k (rows df2) ->
  interpolate_cols cols df1 = Ok d1 -> interpolate_cols cols df2 = Ok d2 ->
  group k (rows d1) = group k (rows d2).
Proof.
  induction cols as [|c cols IH]; intros df1 df2 d1 d2 Hg H1 H2; simpl in *.
  - injection H1 as <-. injection H2 as <-. assumption.
  - destruct (interpolate_col c df1) as [e1|] eqn:E1; [|discriminate].
    destruct (interpolate_col c df2) as [e2|] eqn:E2; [|discriminate].
    simpl in *. eapply IH; [|eassumption|eassumption].
    eapply interpolate_col_group; eassumption.
Qed.



(** ** The cleaning stage (C4, C7, C10) *)

Ltac row_simpl :=
  unfold death_rate_of, vaccination_rate_of, fillna0_row in *;
  cbn [get set set_date
       location date total_cases new_cases total_deaths new_deaths
       total_vaccinations people_vaccinated population death_rate
       vaccination_rate] in *.

Ltac step_as H E :=
  match type of H with
  | rbind ?m _ = Ok _ =>
      destruct m eqn:E; [cbn [rbind] in H | discriminate H]
  end.

Ltac step_into H x E :=
  match type of H with
  | rbind ?m _ = Ok _ =>
      destruct m as [x|] eqn:E; [cbn [rbind] in H | discriminate H]
  end.

Tactic Notation "step" hyp(H) := let E := fresh "E" in step_as H E.

Tactic Notation "step" hyp(H) "as" ident(E) := step_as H E.
Tactic Notation "step" hyp(H) "as" ident(E) "into" ident(x) := step_into H x E.

Lemma require_Ok name df u : require name df = Ok u -> has_col name df = true.
Proof. unfold require. destruct (has_col name df); [reflexivity|discriminate]. Qed.

Lemma require_has name df : has_col name df = true -> require name df = Ok tt.
Proof. unfold require. now intros ->. Qed.

Lemma existsb_with_column n m cols :
  existsb (String.eqb n) (with_column m cols) =
  existsb (String.eqb n) cols || String.eqb n m.
Proof.
  unfold with_column. destruct (existsb (String.eqb m) cols) eqn:E.
  - destruct (String.eqb n m) eqn:En.
    + apply String.eqb_eq in En. subst. rewrite E. reflexivity.
    + now rewrite orb_false_r.
  - rewrite existsb_app. simpl. now rewrite orb_false_r.
Qed.

Lemma with_column_has m cols :
  existsb (String.eqb m) cols = true -> with_column m cols = cols.
Proof. unfold with_column. now intros ->. Qed.

Lemma filter_all {A} (p : A -> bool) l :
  Forall (fun x => p x = true) l -> filter p l = l.
Proof.
  induction 1 as [|x l Hx _ IH]; simpl; [reflexivity|]. now rewrite Hx, IH.
Qed.

Lemma Forall_filter {A} (p : A -> bool) (P : A -> Prop) l :
  Forall P l -> Forall P (filter p l).
Proof.
  induction 1 as [|x l Hx _ IH]; simpl; [constructor|].
  destruct (p x); [constructor|]; assumption.
Qed.

Lemma Forall_filter_true {A} (p : A -> bool) l :
  Forall (fun x => p x = true) (filter p l).
Proof. apply Forall_forall. intros x Hx. now apply filter_In in Hx. Qed.

Section CleaningSteps.

Variable parse : string -> option Z.

Lemma to_datetime_Forall (P : Row -> Prop) rs rs' :
  (forall r d, P r -> P (set_date d r)) ->
  to_datetime parse rs = Ok rs' -> Forall P rs -> Forall P rs'.
Proof.
  intros HP. revert rs'. induction rs as [|r rs IH]; intros rs' H HF.
  - injection H as <-. constructor.
  - cbn [to_datetime] in H. step H. step H. injection H as <-.
    inversion HF; subst. constructor; [now apply HP | now apply IH].
Qed.

Lemma to_datetime_timestamps rs rs' :
  to_datetime parse rs = Ok rs' ->
  Forall (fun r => date_notna r = true) rs ->
  Forall (fun r => is_timestamp (date r) = true) rs'.
Proof.
  revert rs'. induction rs as [|r rs IH]; intros rs' H HF.
  - injection H as <-. constructor.
  - cbn [to_datetime] in H. step H. step H. injection H as <-.
    inversion HF as [|? ? Hr Hrs]; subst.
    constructor; [|now apply IH].
    rewrite date_set_date. unfold date_notna in Hr.
    unfold to_datetime_cell in E. destruct (date r).
    + destruct (parse s); [|discriminate]. now injection E as <-.
    + now injection E as <-.
    + discriminate.
Qed.

Lemma to_datetime_fixed rs :
  Forall (fun r => is_timestamp (date r) = true) rs ->
  to_datetime parse rs = Ok rs.
Proof.
  induction 1 as [|r rs Hr _ IH]; [reflexivity|].
  cbn [to_datetime]. destruct (date r) eqn:Ed; try discriminate.
  cbn [to_datetime_cell rbind]. rewrite IH. cbn [rbind].
  now rewrite <- Ed, set_date_same.
Qed.

Lemma groupby_interpolate_Forall (P : Row -> Prop) col rs :
  (forall r v, P r -> P (set col v r)) ->
  Forall P rs -> Forall P (groupby_interpolate col rs).
Proof.
  intros HP HF. unfold groupby_interpolate.
  pose proof (assign_from_rows col rs 0 rs) as H2.
  induction H2 as [|r r' l l' [v ->] _ IH]; [constructor|].
  inversion HF; subst. constructor; [now apply HP | now apply IH].
Qed.

Lemma interpolate_cols_spec (P : Row -> Prop) cols : forall df df',
  (forall c r v, In c cols -> P r -> P (set c v r)) ->
  interpolate_cols cols df = Ok df' ->
  Forall P (rows df) ->
  columns df' = columns df /\ Forall P (rows df') /\
  Forall (fun c => has_col (col_name c) df = true) cols.
Proof.
  induction cols as [|c cols IH]; intros df df' HP H HF.
  - injection H as <-. auto.
  - cbn [interpolate_cols] in H. step H.
    unfold interpolate_col in E.
    destruct (has_col (col_name c) df) eqn:Hc; [|discriminate].
    injection E as <-.
    apply IH in H as (Hcols & HF' & Hhas).
    + cbn [columns] in Hcols. split; [assumption|]. split; [assumption|].
      constructor; [assumption|].
      eapply Forall_impl; [|exact Hhas]. intros c'. unfold has_col. auto.
    + intros c' r v Hin. apply HP. now right.
    + cbn [rows]. apply groupby_interpolate_Forall; [|assumption].
      intros r v. apply HP. now left.
Qed.

Lemma interpolate_cols_fixed cols : forall df,
  Forall (fun c => has_col (col_name c) df = true) cols ->
  Forall (fun r => Forall (fun c => F64.isnan (get c r) = false) cols) (rows df) ->
  interpolate_cols cols df = Ok df.
Proof.
  induction cols as [|c cols IH]; intros df Hhas Hval; [reflexivity|].
  cbn [interpolate_cols]. unfold interpolate_col.
  inversion Hhas as [|? ? Hc Hcs]; subst. rewrite Hc.
  rewrite groupby_interpolate_valid.
  - destruct df as [cs rs]. cbn [rbind columns rows]. apply IH; [assumption|].
    eapply Forall_impl; [|exact Hval]. intros r Hr. now inversion Hr.
  - eapply Forall_impl; [|exact Hval]. intros r Hr. now inversion Hr.
Qed.

Lemma fill0_valid x : F64.isnan (fill0 x) = false.
Proof. unfold fill0. destruct x; reflexivity. Qed.

Lemma fill0_fixed x : F64.isnan x = false -> fill0 x = x.
Proof. unfold fill0. now intros ->. Qed.

Lemma get_fillna0_row c r : get c (fillna0_row r) = fill0 (get c r).
Proof. destruct c; reflexivity. Qed.

End CleaningSteps.

Section Cleaning.

Variable parse : string -> option Z.

Lemma keyed_set selected c v r : keyed selected r -> keyed selected (set c v r).
Proof. unfold keyed. now rewrite location_set, date_set. Qed.

(** After lines 36-50: the header is that of the file and has the eight
    columns touched so far; every row is of a selected location, has a
    parsed date, and has no NaN left in any float column. *)
Lemma clean_missing_spec df selected d :
  clean_missing parse df selected = Ok d ->
  columns d = columns df /\
  Forall (fun name => has_col name df = true)
         ("location" :: "date" :: map col_name numeric_cols) /\
  Forall (fun r => keyed selected r /\ forall c, F64.isnan (get c r) = false)
         (rows d).
Proof.
  unfold clean_missing. intros H.
  step H as E36 into d36. step H as E39 into d39.
  step H as E42 into d42. step H as E47 into d47.
  injection H as <-.
  (* line 36 *)
  pose proof (filter_selected_rows _ _ _ E36) as [Hc0 Hr0].
  unfold filter_selected in E36. step E36 as Hloc. apply require_Ok in Hloc.
  clear E36.
  (* line 39 *)
  unfold dropna_date in E39.
  destruct (has_col "date" d36) eqn:Hdate; [|discriminate].
  injection E39 as <-.
  (* line 42 *)
  unfold convert_dates in E42. step E42 as Hd. step E42 as E0.
  injection E42 as <-. clear Hd.
  (* lines 46-47 *)
  apply (interpolate_cols_spec (keyed selected)) in E47
    as (E47 & HF2 & Hhas2).
  - rename E47 into Hc2. cbn [columns boolean_mask] in *.
    split; [cbn [fillna0 columns]; congruence|].
    split.
    + constructor; [assumption|].
      constructor; [unfold has_col in *; now rewrite <- Hc0|].
      apply Forall_map. eapply Forall_impl; [|exact Hhas2].
      intros c. unfold has_col. cbn [columns]. now rewrite Hc0.
    + cbn [fillna0 rows]. apply Forall_map.
      eapply Forall_impl; [|exact HF2]. intros r Hr. split.
      * exact Hr.
      * intros c. rewrite get_fillna0_row. apply fill0_valid.
  - intros c r v _. apply keyed_set.
  - cbn [rows boolean_mask]. unfold keyed.
    apply Forall_and.
    + eapply to_datetime_Forall; [|exact E0|].
      * intros r d. now rewrite location_set_date.
      * apply Forall_filter. rewrite Hr0.
        apply Forall_forall. intros r Hr. apply filter_In in Hr as [_ Hr].
        now apply isin_In.
    + eapply to_datetime_timestamps; [exact E0|].
      apply Forall_filter_true.
Qed.

Lemma has_col_mk name cols rs :
  has_col name (mkDF cols rs) = existsb (String.eqb name) cols.
Proof. reflexivity. Qed.

(** What [clean] returns is a cleaned table. *)
Lemma clean_cleaned df selected df' :
  clean parse df selected = Ok df' -> cleaned selected df'.
Proof.
  unfold clean. intros H. step H as E50 into a. step H as E92 into d92.
  apply clean_missing_spec in E50 as (Hc & Hhas & Hrows).
  unfold add_death_rate in E92. step E92 as H1. step E92 as H2.
  injection E92 as <-.
  unfold add_vaccination_rate in H. step H as H3. step H as E3.
  injection H as <-.
  apply require_Ok in E3. clear H1 H2 H3.
  rewrite has_col_mk, existsb_with_column, orb_false_r in E3.
  assert (Hcols : forall n, existsb (String.eqb n) (columns df) = true ->
                            existsb (String.eqb n) (columns a) = true)
    by (intros n; now rewrite Hc).
  split.
  - unfold cleaned_columns, owid_columns. cbn [app rows columns].
    repeat match goal with
           | H : Forall _ (_ :: _) |- _ => inversion H; clear H; subst
           end.
    repeat constructor;
      rewrite has_col_mk, !existsb_with_column;
      try (rewrite Hcols by assumption; reflexivity);
      try (rewrite E3; reflexivity);
      try (rewrite String.eqb_refl; now rewrite ?orb_true_r).
  - cbn [rows]. apply Forall_map, Forall_map.
    eapply Forall_impl; [|exact Hrows].
    intros r [[Hloc Hdate] Hval].
    pose proof (Hval Population). pose proof (Hval TotalCases).
    pose proof (Hval NewCases). pose proof (Hval TotalDeaths).
    pose proof (Hval NewDeaths). pose proof (Hval TotalVaccinations).
    pose proof (Hval PeopleVaccinated). clear Hval.
    destruct r. row_simpl.
    constructor; row_simpl; try assumption; try reflexivity.
    unfold numeric_cols. repeat constructor; row_simpl; assumption.
Qed.

Lemma map_fixed {A} (f : A -> A) l :
  Forall (fun x => f x = x) l -> map f l = l.
Proof. induction 1 as [|x l Hx _ IH]; simpl; congruence. Qed.

(** Cleaning a cleaned table returns it. *)
Lemma cleaned_fixed selected df :
  cleaned selected df -> clean parse df selected = Ok df.
Proof.
  intros [Hcols Hrows]. destruct df as [cs rs]. cbn [rows] in Hrows.
  assert (Hh : forall n, In n cleaned_columns ->
                         existsb (String.eqb n) cs = true).
  { intros n Hn. rewrite Forall_forall in Hcols. exact (Hcols n Hn). }
  unfold clean, clean_missing.
  (* line 36 *)
  unfold filter_selected. rewrite require_has by (apply Hh; cbn; tauto).
  cbn [rbind]. unfold boolean_mask at 1. cbn [columns rows].
  rewrite filter_all.
  2:{ eapply Forall_impl; [|exact Hrows]. intros r Hr.
      apply isin_In, Hr. }
  (* line 39 *)
  unfold dropna_date. rewrite has_col_mk, Hh by (cbn; tauto).
  cbn [rbind]. unfold boolean_mask. cbn [columns rows].
  rewrite filter_all.
  2:{ eapply Forall_impl; [|exact Hrows]. intros r Hr.
      unfold date_notna. destruct Hr as [_ Hd _ _ _].
      destruct (date r); [reflexivity|reflexivity|discriminate]. }
  (* line 42 *)
  unfold convert_dates. rewrite require_has by (apply Hh; cbn; tauto).
  cbn [rbind columns rows]. rewrite to_datetime_fixed.
  2:{ eapply Forall_impl; [|exact Hrows]. intros r Hr. apply Hr. }
  cbn [rbind].
  (* lines 46-47 *)
  rewrite interpolate_cols_fixed.
  2:{ repeat constructor; apply Hh; cbn; tauto. }
  2:{ cbn [rows]. eapply Forall_impl; [|exact Hrows]. intros r Hr.
      destruct Hr as [_ _ Hv _ _]. now inversion Hv. }
  cbn [rbind].
  (* lines 50, 92, 117 *)
  unfold add_death_rate, fillna0. cbn [columns rows].
  rewrite !require_has by (apply Hh; cbn; tauto). cbn [rbind].
  unfold add_vaccination_rate. cbn [columns rows].
  rewrite !require_has
    by (rewrite has_col_mk, existsb_with_column, Hh by (cbn; tauto);
        reflexivity).
  cbn [rbind].
  rewrite !with_column_has by (rewrite ?with_column_has; apply Hh; cbn; tauto).
  do 2 f_equal. rewrite !map_map. apply map_fixed.
  eapply Forall_impl; [|exact Hrows]. intros r Hr.
  destruct Hr as [_ _ Hv Hdr Hvr]. unfold numeric_cols in Hv.
  repeat match goal with
         | H : Forall _ (_ :: _) |- _ => inversion H; clear H; subst
         end.
  destruct r. row_simpl.
  repeat match goal with
         | H : F64.isnan ?x = false |- _ => rewrite (fill0_fixed x H); clear H
         end.
  now rewrite <- Hdr, <- Hvr.
Qed.

End Cleaning.

(** *** Row by row through the cleaning stage *)

Lemma Forall2_compose {A B} (R R' : A -> B -> Prop) (S : B -> B -> Prop) :
  (forall a b b', R a b -> S b b' -> R' a b') ->
  forall l1 l2 l3, Forall2 R l1 l2 -> Forall2 S l2 l3 -> Forall2 R' l1 l3.
Proof.
  intros HRS l1 l2 l3 H12. revert l3.
  induction H12 as [|a b l1 l2 Hab _ IH]; intros l3 H23.
  - inversion H23. constructor.
  - inversion H23; subst. constructor; [eapply HRS; eassumption | now apply IH].
Qed.

Lemma Forall2_map_right {A B C} (R : A -> C -> Prop) (f : B -> C) l l' :
  Forall2 (fun a b => R a (f b)) l l' -> Forall2 R l (map f l').
Proof. induction 1; simpl; constructor; assumption. Qed.

Section Trace.

Variable parse : string -> option Z.

Lemma to_datetime_traces rs rs' :
  to_datetime parse rs = Ok rs' ->
  Forall2 (traces parse (fun x => x)) rs rs'.
Proof.
  revert rs'. induction rs as [|r rs IH]; intros rs' H.
  - injection H as <-. constructor.
  - cbn [to_datetime] in H. step H as Hd. step H as Hrs. injection H as <-.
    constructor; [|now apply IH].
    unfold traces. rewrite location_set_date, date_set_date.
    destruct r; auto.
Qed.

Lemma traces_set fill c v r0 r :
  c <> Population -> traces parse fill r0 r -> traces parse fill r0 (set c v r).
Proof.
  unfold traces. intros Hc (Hl & Hd & Hp).
  rewrite location_set, date_set. repeat split; try assumption.
  change (get Population (set c v r) = fill (population r0)).
  now rewrite get_set_other.
Qed.

Lemma interpolate_cols_traces fill cols rs0 : forall df df',
  ~ In Population cols ->
  interpolate_cols cols df = Ok df' ->
  Forall2 (traces parse fill) rs0 (rows df) ->
  Forall2 (traces parse fill) rs0 (rows df').
Proof.
  induction cols as [|c cols IH]; intros df df' Hnot H HF.
  - now injection H as <-.
  - cbn [interpolate_cols] in H. step H as Hc.
    unfold interpolate_col in Hc.
    destruct (has_col (col_name c) df); [|discriminate].
    injection Hc as <-.
    eapply IH; [|exact H|].
    + intros Hin. apply Hnot. now right.
    + cbn [rows]. eapply Forall2_compose; [|exact HF|apply assign_from_rows].
      intros r0 r r' Hr [v ->]. apply traces_set; [|assumption].
      intros ->. apply Hnot. now left.
Qed.

(** The rows of [clean] are the kept rows of the file, one for one and in
    order: same location, the source date parsed, and the source
    population with 0 in place of NaN. *)
Lemma clean_traces df selected df' :
  clean parse df selected = Ok df' ->
  Forall2 (traces parse fill0) (kept_rows selected df) (rows df').
Proof.
  unfold clean. intros H. step H as E50. step H as E92.
  unfold add_death_rate in E92. step E92 as H1. step E92 as H2.
  injection E92 as <-.
  unfold add_vaccination_rate in H. step H as H3. step H as H4.
  injection H as <-. clear H1 H2 H3 H4.
  unfold clean_missing in E50.
  step E50 as E36 into d36. step E50 as E39 into d39.
  step E50 as E42 into d42. step E50 as E47 into d47.
  injection E50 as <-.
  apply filter_selected_rows in E36 as [_ Hr36].
  unfold dropna_date in E39. destruct (has_col "date" d36); [|discriminate].
  injection E39 as <-.
  unfold convert_dates in E42. step E42 as Hd. step E42 as Hdt.
  injection E42 as <-.
  apply to_datetime_traces in Hdt.
  cbn [rows boolean_mask] in Hdt. rewrite Hr36 in Hdt.
  fold (kept_rows selected df) in Hdt.
  eapply interpolate_cols_traces in E47; [|shelve|exact Hdt].
  cbn [rows fillna0].
  apply Forall2_map_right, Forall2_map_right, Forall2_map_right.
  eapply Forall2_impl; [|exact E47].
  intros r0 r (Hl & Hdate & Hp). unfold traces.
  destruct r. row_simpl. subst. auto.
  Unshelve.
  unfold numeric_cols. cbn [In]. intros H.
  repeat (destruct H as [H|H]; [discriminate|]). exact H.
Qed.

End Trace.

Lemma Forall2_In_right {A B} (R : A -> B -> Prop) l l' b :
  Forall2 R l l' -> In b l' -> exists a, In a l /\ R a b.
Proof.
  induction 1 as [|a0 b0 l l' Hab _ IH]; intros Hin; [contradiction|].
  destruct Hin as [<-|Hin].
  - exists a0. split; [now left | assumption].
  - destruct (IH Hin) as [a [Ha HR]]. exists a. split; [now right | assumption].
Qed.



(** C7: cleaning the table that [clean] returned, with the same selected
    list, returns that table. *)
Theorem C7_clean_idempotent :
  forall (parse : string -> option Z) (df : DataFrame) (selected : list string),
    (df' <- clean parse df selected ;; clean parse df' selected)%res
    = clean parse df selected.
Proof.
  intros parse df selected.
  destruct (clean parse df selected) as [df'|e] eqn:E; cbn [rbind].
  - apply cleaned_fixed. eapply clean_cleaned. exact E.
  - reflexivity.
Qed.




(** ** The latest-per-entity summary (C1) *)

Lemma key_lt_trans a b c : key_lt a b -> key_lt b c -> key_lt a c.
Proof.
  unfold key_lt. intros H1 H2.
  apply OrderedTypeEx.String_as_OT.cmp_lt.
  apply OrderedTypeEx.String_as_OT.cmp_lt in H1, H2.
  eapply OrderedTypeEx.String_as_OT.lt_trans; eassumption.
Qed.

Lemma key_lt_irrefl a : ~ key_lt a a.
Proof.
  unfold key_lt. intros H.
  assert (String.compare a a = Eq)
    by now apply OrderedTypeEx.String_as_OT.cmp_eq.
  congruence.
Qed.

Lemma key_gt_lt a b : String.compare a b = Gt -> key_lt b a.
Proof.
  unfold key_lt. intros H. rewrite String.compare_antisym, H. reflexivity.
Qed.

Lemma insert_key_In x k ks : In x (insert_key k ks) <-> x = k \/ In x ks.
Proof.
  induction ks as [|k' ks IH]; cbn [insert_key].
  - simpl. intuition.
  - destruct (String.compare k k') eqn:E.
    + apply String.compare_eq_iff in E. subst. simpl. intuition.
    + simpl. intuition.
    + simpl. rewrite IH. intuition.
Qed.

Lemma insert_key_sorted k ks :
  StronglySorted key_lt ks -> StronglySorted key_lt (insert_key k ks).
Proof.
  induction 1 as [|k' ks Hs IH Hall]; cbn [insert_key].
  - repeat constructor.
  - destruct (String.compare k k') eqn:E.
    + now constructor.
    + constructor; [now constructor|].
      constructor; [exact E|].
      eapply Forall_impl; [|exact Hall]. intros x. now apply key_lt_trans.
    + constructor; [assumption|].
      apply Forall_forall. intros x Hx. apply insert_key_In in Hx as [->|Hx].
      * now apply key_gt_lt.
      * rewrite Forall_forall in Hall. now apply Hall.
Qed.

Lemma group_keys_sorted rs : StronglySorted key_lt (group_keys rs).
Proof.
  unfold group_keys. induction (map location rs) as [|k ks IH]; simpl.
  - constructor.
  - now apply insert_key_sorted.
Qed.

Lemma group_keys_In k rs : In k (group_keys rs) <-> In k (map location rs).
Proof.
  unfold group_keys. induction (map location rs) as [|k' ks IH]; simpl.
  - reflexivity.
  - rewrite insert_key_In, IH. intuition.
Qed.

Lemma sorted_NoDup ks : StronglySorted key_lt ks -> NoDup ks.
Proof.
  induction 1 as [|k ks _ IH Hall]; constructor; [|assumption].
  intros Hin. rewrite Forall_forall in Hall.
  exact (key_lt_irrefl k (Hall k Hin)).
Qed.

Lemma latest_locations rs : map location (latest rs) = group_keys rs.
Proof. unfold latest. rewrite map_map. apply map_id. Qed.

Lemma last_valid_snoc vs v :
  last_valid (vs ++ [v]) = if F64.isnan v then last_valid vs else v.
Proof.
  induction vs as [|a vs IH]; cbn [app last_valid].
  - destruct v; reflexivity.
  - rewrite IH. destruct (F64.isnan v) eqn:E; [reflexivity|]. now rewrite E.
Qed.

Lemma last_date_snoc ds d :
  last_date (ds ++ [d]) = match d with DateNaN => last_date ds | _ => d end.
Proof.
  induction ds as [|a ds IH]; cbn [app last_date].
  - destruct d; reflexivity.
  - rewrite IH. destruct d; reflexivity.
Qed.

Lemma sorted_last_max {A} (R : A -> A -> Prop) l x :
  StronglySorted R (l ++ [x]) -> Forall (fun y => R y x) l.
Proof.
  induction l as [|a l IH]; intros H; [constructor|].
  cbn [app] in H. inversion H as [|? ? Hs Hall]; subst.
  constructor; [|now apply IH].
  rewrite Forall_forall in Hall. apply Hall, in_or_app. right. now left.
Qed.

(** C1, as the code has it: the summary has one row per location present;
    it holds the values of the location's last row in source order (for a
    derived rate that is NaN there, the last value above it that is not);
    its date is the greatest of the location when the rows of the location
    come in chronological order. *)
Theorem C1_latest_is_last_in_source_order :
  forall (parse : string -> option Z) (df : DataFrame)
         (selected : list string) (d : DataFrame),
    clean parse df selected = Ok d ->
    NoDup (map location (latest (rows d))) /\
    forall k, In k (map location (rows d)) ->
      exists g rl,
        group k (rows d) = g ++ [rl] /\
        let r := last_of_group k (group k (rows d)) in
        In r (latest (rows d)) /\
        (forall r', In r' (latest (rows d)) -> location r' = k -> r' = r) /\
        location r = k /\
        date r = date rl /\
        (forall c, In c (Population :: numeric_cols) -> get c r = get c rl) /\
        death_rate r =
          (if F64.isnan (death_rate rl) then last_valid (map death_rate g)
           else death_rate rl) /\
        vaccination_rate r =
          (if F64.isnan (vaccination_rate rl)
           then last_valid (map vaccination_rate g)
           else vaccination_rate rl) /\
        (StronglySorted date_le (map date (group k (rows d))) ->
         forall r', In r' (group k (rows d)) -> date_le (date r') (date r)).
Proof.
  intros parse df selected d H.
  apply clean_cleaned in H as [_ Hrows].
  split.
  { rewrite latest_locations. apply sorted_NoDup, group_keys_sorted. }
  intros k Hk.
  assert (group k (rows d) <> []) as Hne.
  { apply in_map_iff in Hk as [r0 [Hl Hr0]].
    intros Hnil. assert (In r0 (group k (rows d))) as Hin
      by (apply group_In; auto).
    rewrite Hnil in Hin. exact Hin. }
  destruct (exists_last Hne) as [g [rl Hg]].
  exists g, rl. split; [exact Hg|]. cbv zeta.
  assert (cleaned_row selected rl) as [_ Hdate Hval _ _].
  { rewrite Forall_forall in Hrows. apply Hrows.
    assert (In rl (group k (rows d))) as Hin
      by (rewrite Hg; apply in_or_app; right; now left).
    now apply group_In in Hin. }
  assert (date (last_of_group k (group k (rows d))) = date rl) as Hd.
  { rewrite Hg. cbn [last_of_group date]. rewrite map_app. cbn [map].
    rewrite last_date_snoc. destruct (date rl); try reflexivity; discriminate. }
  split; [|split; [|split; [reflexivity|split; [exact Hd|split; [|split; [|split]]]]]].
  - unfold latest. apply in_map_iff. exists k. split; [reflexivity|].
    now apply group_keys_In.
  - intros r' Hr' Hl. unfold latest in Hr'.
    apply in_map_iff in Hr' as [k' [<- _]]. cbn [location last_of_group] in Hl.
    now subst.
  - intros c Hc. rewrite Forall_forall in Hval. specialize (Hval c Hc).
    rewrite Hg.
    destruct c; cbn [get last_of_group total_cases new_cases total_deaths
                     new_deaths total_vaccinations people_vaccinated
                     population death_rate vaccination_rate] in *;
      rewrite map_app; cbn [map]; rewrite last_valid_snoc;
      try (now rewrite Hval);
      exfalso; cbn in Hc; intuition discriminate.
  - rewrite Hg. cbn [last_of_group death_rate]. rewrite map_app. cbn [map].
    apply last_valid_snoc.
  - rewrite Hg. cbn [last_of_group vaccination_rate]. rewrite map_app.
    cbn [map]. apply last_valid_snoc.
  - intros Hs r' Hr'. rewrite Hd. rewrite Hg in Hs, Hr'.
    rewrite map_app in Hs. cbn [map] in Hs.
    apply sorted_last_max in Hs. rewrite Forall_forall in Hs.
    apply in_app_or in Hr' as [Hr'|[<-|[]]].
    + apply Hs. now apply in_map.
    + destruct (date rl); try discriminate. cbn. lia.
Qed.

Lemma C1_latest_witness :
  exists d,
    clean iso_date gappy ["India"; "Kenya"] = Ok d /\
    In "India" (map location (rows d)) /\
    StronglySorted date_le (map date (group "India" (rows d))) /\
    map date (latest (rows d)) = [Timestamp 18689; Timestamp 18687] /\
    forall r', In r' (group "India" (rows d)) ->
               date_le (date r')
                       (date (last_of_group "India" (group "India" (rows d)))).
Proof.
  destruct (clean iso_date gappy ["India"; "Kenya"]) as [d|e] eqn:E;
    [|vm_compute in E; discriminate].
  exists d.
  destruct (C1_latest_is_last_in_source_order
              iso_date gappy ["India"; "Kenya"] d E) as [_ Hk].
  assert (d = match clean iso_date gappy ["India"; "Kenya"] with
              | Ok d' => d'
              | Raise _ => gappy
              end) as Hd by now rewrite E.
  vm_compute in Hd.
  assert (In "India" (map location (rows d))) as Hin
    by (rewrite Hd; cbn; tauto).
  assert (StronglySorted date_le (map date (group "India" (rows d)))) as Hs
    by (rewrite Hd; cbn; repeat constructor; cbn; lia).
  destruct (Hk "India" Hin) as (g & rl & _ & _ & _ & _ & _ & _ & _ & _ & Hmax).
  split; [reflexivity|]. split; [exact Hin|]. split; [exact Hs|].
  split; [rewrite Hd; reflexivity|].
  exact (Hmax Hs).
Defined.

(** C1 as stated fails: with the later day listed first, the summary holds
    the row of 2021-01-01, the last in source order, although the location
    has a row of 2021-01-02. *)
Lemma C1_counterexample :
  ~ (forall d,
       clean iso_date out_of_order ["A"] = Ok d ->
       forall r, In r (latest (rows d)) ->
       forall r', In r' (rows d) -> location r' = location r ->
                  date_le (date r') (date r)).
Proof.
  intros H.
  destruct (clean iso_date out_of_order ["A"]) as [d|e] eqn:E;
    [|vm_compute in E; discriminate].
  specialize (H d eq_refl).
  vm_compute in E. injection E as <-.
  cbn [rows] in H.
  match type of H with
  | forall r, In r ?l -> forall r', In r' (?a :: ?b :: nil) -> _ =>
      specialize (H (hd a l) (or_introl eq_refl) a (or_introl eq_refl) eq_refl)
  end.
  vm_compute in H. apply H. reflexivity.
Qed.

(** ** The run as a whole (C8, C9) *)

Lemma all_series_ok col df countries :
  has_col "location" df = true -> has_col "date" df = true ->
  has_col (col_name col) df = true ->
  all_series col df countries = Ok (plot_series col df countries).
Proof.
  intros Hl Hd Hc. induction countries as [|c cs IH]; [reflexivity|].
  cbn [all_series plot_series map]. unfold country_series.
  rewrite !require_has by assumption. cbn [rbind]. rewrite IH. reflexivity.
Qed.

Lemma line_plot_ok title col df countries :
  has_col "location" df = true -> has_col "date" df = true ->
  has_col (col_name col) df = true ->
  line_plot title col countries df =
  ([LinePlot title (plot_series col df countries)], Ok tt).
Proof.
  intros Hl Hd Hc. unfold line_plot. now rewrite all_series_ok.
Qed.

Section Run.

Variable parse : string -> option Z.
Variable read_csv : string -> result DataFrame.

(** A run whose cleaning succeeds shows everything up to line 127; what
    follows depends on the summary alone. *)
Lemma analyze_body_until_summary path selected df d50 d92 d117 :
  read_csv path = Ok df ->
  clean_missing parse df selected = Ok d50 ->
  add_death_rate d50 = Ok d92 ->
  add_vaccination_rate d92 = Ok d117 ->
  analyze_body parse read_csv path selected =
  match summarize_latest d117 with
  | Raise e => (report_until_summary path selected df d50 d92 d117, Raise e)
  | Ok summary =>
      match bar_plot bar_title summary with
      | (out, Ok _) =>
          (report_until_summary path selected df d50 d92 d117
             ++ out ++ insights, Ok tt)
      | (out, Raise e) =>
          (report_until_summary path selected df d50 d92 d117 ++ out, Raise e)
      end
  end.
Proof.
  intros Hread H50 H92 H117.
  pose proof (clean_missing_spec _ _ _ _ H50) as (Hc50 & Hhas & _).
  assert (Hh : forall n, In n ("location" :: "date" :: map col_name numeric_cols) ->
                         existsb (String.eqb n) (columns d50) = true).
  { intros n Hn. rewrite Hc50. rewrite Forall_forall in Hhas.
    exact (Hhas n Hn). }
  assert (columns d92 = with_column "death_rate" (columns d50)) as Hc92.
  { unfold add_death_rate in H92. step H92 as H1. step H92 as H2.
    now injection H92 as <-. }
  assert (columns d117 = with_column "vaccination_rate" (columns d92)) as Hc117.
  { unfold add_vaccination_rate in H117. step H117 as H1. step H117 as H2.
    now injection H117 as <-. }
  assert (Hp50 : forall title col,
            In (col_name col) (map col_name numeric_cols) ->
            line_plot title col selected d50 =
            ([LinePlot title (plot_series col d50 selected)], Ok tt)).
  { intros title col Hcol. apply line_plot_ok; unfold has_col; apply Hh;
      cbn [In]; auto. }
  assert (Hp92 : forall title col,
            In (col_name col) ("death_rate" :: map col_name numeric_cols) ->
            line_plot title col selected d92 =
            ([LinePlot title (plot_series col d92 selected)], Ok tt)).
  { intros title col Hcol.
    apply line_plot_ok; unfold has_col; rewrite Hc92, existsb_with_column;
      try (rewrite Hh by (cbn; tauto); reflexivity).
    destruct Hcol as [<-|Hcol].
    - rewrite String.eqb_refl. apply orb_true_r.
    - rewrite Hh by (cbn [In]; auto). reflexivity. }
  assert (Hp117 :
            line_plot "Percentage of Population Vaccinated Over Time"
              VaccinationRate selected d117 =
            ([LinePlot "Percentage of Population Vaccinated Over Time"
                (plot_series VaccinationRate d117 selected)], Ok tt)).
  { apply line_plot_ok; unfold has_col;
      rewrite Hc117, Hc92, !existsb_with_column;
      try (rewrite Hh by (cbn; tauto); reflexivity).
    cbn [col_name]. rewrite String.eqb_refl. apply orb_true_r. }
  unfold analyze_body. rewrite Hread. cbn [bind emit lift app].
  rewrite H50. cbn [bind emit lift app].
  rewrite !Hp50 by (cbn; tauto). cbn [bind emit lift app].
  rewrite H92. cbn [bind emit lift app].
  rewrite !Hp92 by (cbn; tauto). cbn [bind emit lift app].
  rewrite H117. cbn [bind emit lift app].
  rewrite Hp117. cbn [bind emit lift app].
  unfold report_until_summary, insights.
  destruct (summarize_latest d117) as [summary|e]; [|reflexivity].
  cbn [bind emit lift app].
  destruct (bar_plot bar_title summary) as [out [u|e]].
  - cbn [bind emit lift app]. reflexivity.
  - reflexivity.
Qed.

End Run.

Lemma existsb_filter_other n cols :
  String.eqb n "location" = false ->
  existsb (String.eqb n)
    (filter (fun c => negb (String.eqb c "location")) cols) =
  existsb (String.eqb n) cols.
Proof.
  intros Hn. induction cols as [|c cols IH]; [reflexivity|].
  cbn [filter existsb]. destruct (String.eqb c "location") eqn:Ec; cbn [negb].
  - rewrite IH. apply String.eqb_eq in Ec. subst c. now rewrite Hn.
  - cbn [existsb]. now rewrite IH.
Qed.

Lemma snapshot_bars_spec rs :
  map (fun r => (location r, vaccination_rate r))
    (map (fun r => set VaccinationRate (vaccination_rate_of r) r)
       (write_col Population snapshot_population rs)) =
  snapshot_bars rs.
Proof.
  unfold write_col, snapshot_bars. rewrite !map_map. apply map_ext.
  intros [r p]. destruct r. reflexivity.
Qed.

(** Lines 130-142 on a cleaned table: the summary fails at line 133 unless
    it has three rows, and otherwise the bars are drawn from the constants. *)
Lemma summary_of_cleaned selected d :
  cleaned selected d ->
  (length (latest (rows d)) <> 3 ->
   summarize_latest d =
   Raise (ValueError (msg_length_mismatch (length (latest (rows d)))))) /\
  (length (latest (rows d)) = 3 ->
   exists summary,
     summarize_latest d = Ok summary /\
     bar_plot bar_title summary =
     ([BarPlot bar_title (snapshot_bars (latest (rows d)))], Ok tt)).
Proof.
  intros [Hcols _]. rewrite Forall_forall in Hcols.
  assert (Hh : forall n, In n cleaned_columns ->
                         existsb (String.eqb n) (columns d) = true)
    by exact Hcols.
  unfold summarize_latest, groupby_last.
  rewrite require_has by (apply Hcols; cbn; tauto). cbn [rbind].
  unfold assign_population. cbn [rows columns length snapshot_population].
  split.
  - intros Hn. destruct (Nat.eqb_spec 3 (length (latest (rows d)))) as [E|E].
    + now elim Hn.
    + reflexivity.
  - intros Hn. rewrite Hn. cbn [Nat.eqb rbind].
    unfold add_vaccination_rate. cbn [columns rows].
    rewrite !require_has.
    all: try solve
      [ rewrite has_col_mk, !existsb_with_column; cbn [existsb];
        rewrite ?existsb_filter_other by reflexivity;
        rewrite ?Hh by (cbn; tauto);
        rewrite ?String.eqb_refl, ?orb_true_r; reflexivity ].
    cbn [rbind]. eexists. split; [reflexivity|].
    unfold bar_plot. rewrite !require_has.
    all: try solve
      [ rewrite has_col_mk, !existsb_with_column; cbn [existsb];
        rewrite ?String.eqb_refl, ?orb_true_r; reflexivity ].
    cbn [bind lift emit app rows]. now rewrite snapshot_bars_spec.
Qed.

(** The [try] statement of the script, for any body. *)
Lemma try_handlers_run data_path (body : Py unit) :
  try_except_finally body (handlers data_path) (emit (Print msg_complete)) =
  (fst body
     ++ match snd body with
        | Ok _ => []
        | Raise e => handler_output data_path e
        end
     ++ [Print msg_complete],
   Ok tt).
Proof.
  destruct body as [out [u|e]]; [reflexivity|]. destruct e; reflexivity.
Qed.

(** C8: whatever the body of the [try] does, the run ends without an
    exception: the output of the body is followed by the message of the
    handler for the class of the exception, if one was raised, and then,
    in every case, by the completion notice.  A path that does not exist
    gives the file-not-found message and the notice. *)
Theorem C8_failures_caught_and_completion_notice :
  forall (parse : string -> option Z) (read_csv : string -> result DataFrame)
         (data_path : string) (selected : list string),
    (forall body : Py unit,
       try_except_finally body (handlers data_path) (emit (Print msg_complete)) =
       (fst body
          ++ match snd body with
             | Ok _ => []
             | Raise e => handler_output data_path e
             end
          ++ [Print msg_complete],
        Ok tt)) /\
    snd (analyze_covid_data parse read_csv data_path selected) = Ok tt /\
    (exists out,
       fst (analyze_covid_data parse read_csv data_path selected) =
       out ++ [Print msg_complete]) /\
    (forall m,
       read_csv data_path = Raise (FileNotFoundError m) ->
       analyze_covid_data parse read_csv data_path selected =
       ([Print (msg_not_found data_path); Print msg_complete], Ok tt)).
Proof.
  intros parse read_csv data_path selected.
  pose proof (try_handlers_run data_path) as Hgen.
  split; [exact Hgen|]. unfold analyze_covid_data.
  split; [now rewrite Hgen|].
  split.
  - rewrite Hgen. cbn [fst]. rewrite app_assoc. eauto.
  - intros m Hm. rewrite Hgen. unfold analyze_body. rewrite Hm. reflexivity.
Qed.

Lemma C8_failures_witness :
  analyze_covid_data iso_date no_file "owid-covid-data.csv"
    ["Kenya"; "United States"; "India"] =
  ([Print "Error: The file 'owid-covid-data.csv' was not found. Please check the file path.";
    Print msg_complete], Ok tt) /\
  (exists out,
     analyze_covid_data iso_date (one_file "f.csv" no_population_column) "f.csv"
       ["Kenya"] =
     (out ++ [Print (msg_missing_column (KeyError "'population'"));
              Print msg_complete], Ok tt)) /\
  (exists out,
     analyze_covid_data iso_date (one_file "f.csv" bad_date) "f.csv" ["A"] =
     (out ++ [Print "An unexpected error occurred: Unknown datetime string format, unable to parse: yesterday";
              Print "Please check the data and try again.";
              Print msg_complete], Ok tt)).
Proof.
  split.
  - destruct (C8_failures_caught_and_completion_notice
                iso_date no_file "owid-covid-data.csv"
                ["Kenya"; "United States"; "India"]) as (_ & _ & _ & Hnf).
    exact (Hnf _ eq_refl).
  - split.
    + destruct (C8_failures_caught_and_completion_notice
                  iso_date (one_file "f.csv" no_population_column) "f.csv"
                  ["Kenya"]) as (Hgen & _).
      exists (fst (analyze_body iso_date (one_file "f.csv" no_population_column)
                     "f.csv" ["Kenya"])).
      unfold analyze_covid_data. rewrite Hgen.
      assert (snd (analyze_body iso_date (one_file "f.csv" no_population_column)
                     "f.csv" ["Kenya"]) = Raise (KeyError "'population'")) as ->
        by (vm_compute; reflexivity).
      reflexivity.
    + destruct (C8_failures_caught_and_completion_notice
                  iso_date (one_file "f.csv" bad_date) "f.csv" ["A"])
        as (Hgen & _).
      exists (fst (analyze_body iso_date (one_file "f.csv" bad_date)
                     "f.csv" ["A"])).
      unfold analyze_covid_data. rewrite Hgen.
      assert (snd (analyze_body iso_date (one_file "f.csv" bad_date)
                     "f.csv" ["A"]) =
              Raise (ValueError "Unknown datetime string format, unable to parse: yesterday")) as ->
        by (vm_compute; reflexivity).
      reflexivity.
Defined.




(** * Further properties of the script *)

(** ** What interpolation and cleaning leave alone *)

Lemma nth_error_nth_default {A} (l : list A) n x d :
  nth_error l n = Some x -> nth n l d = x.
Proof.
  revert n. induction l as [|a l IH]; intros [|n] H; try discriminate.
  - now injection H as ->.
  - simpl. now apply IH.
Qed.

(** Row by row: line 47 writes column [col] only, and writes back the
    value that was there when it was known. *)
Lemma assign_from_keeps col pre rest :
  Forall2 (fun r r' =>
             exists v, r' = set col v r /\
                       (F64.isnan (get col r) = false -> v = get col r))
          rest (assign_from col (pre ++ rest) (length pre) rest).
Proof.
  revert pre. induction rest as [|r rest IH]; intros pre; cbn [assign_from].
  - constructor.
  - constructor.
    + eexists. split; [reflexivity|]. intros Hv.
      rewrite firstn_app, Nat.sub_diag, firstn_all, firstn_O, app_nil_r.
      apply nth_error_nth_default. apply interpolate_keeps_valid; [|exact Hv].
      rewrite group_app, group_cons, String.eqb_refl, map_app.
      rewrite nth_error_app2 by (rewrite length_map; lia).
      now rewrite length_map, Nat.sub_diag.
    + specialize (IH (pre ++ [r])).
      rewrite <- app_assoc in IH. cbn [app] in IH.
      rewrite length_app in IH. cbn [length] in IH.
      replace (length pre + 1) with (S (length pre)) in IH by lia.
      exact IH.
Qed.

Lemma groupby_interpolate_writes_one_column_aux col rs :
  Forall2 (fun r r' =>
             agree_except col r r' /\
             (F64.isnan (get col r) = false -> get col r' = get col r))
          rs (groupby_interpolate col rs).
Proof.
  unfold groupby_interpolate.
  eapply Forall2_impl; [|exact (assign_from_keeps col [] rs)].
  intros r r' [v [-> Hv]]. split.
  - unfold agree_except. rewrite location_set, date_set.
    split; [reflexivity|]. split; [reflexivity|].
    intros c Hc. now apply get_set_other.
  - intros Hk. rewrite get_set_same. now apply Hv.
Qed.


Lemma NumCol_eq_dec (c c' : NumCol) : {c = c'} + {c <> c'}.
Proof. decide equality. Defined.

Lemma Forall2_same {A} (R : A -> A -> Prop) l :
  (forall a, R a a) -> Forall2 R l l.
Proof. intros HR. induction l; constructor; auto. Qed.

Lemma keeps_known_refl r : keeps_known r r.
Proof. split; auto. Qed.

Lemma keeps_known_trans r0 r1 r2 :
  keeps_known r0 r1 -> keeps_known r1 r2 -> keeps_known r0 r2.
Proof.
  intros [Hl1 H1] [Hl2 H2]. split; [congruence|].
  intros c Hc Hv. rewrite H2; [now apply H1| assumption |].
  rewrite H1; assumption.
Qed.

Lemma groupby_interpolate_keeps_known col rs :
  Forall2 keeps_known rs (groupby_interpolate col rs).
Proof.
  eapply Forall2_impl; [|apply groupby_interpolate_writes_one_column_aux].
  intros r r' [(Hl & _ & Hother) Hsame]. split; [exact Hl|].
  intros c _ Hv. destruct (NumCol_eq_dec c col) as [->|Hne].
  - now apply Hsame.
  - now apply Hother.
Qed.

Section KnownValues.

Variable parse : string -> option Z.

(** Parsing the dates touches the date only. *)
Lemma to_datetime_cells rs rs' :
  to_datetime parse rs = Ok rs' ->
  Forall2 (fun r r' => location r' = location r /\
                       to_datetime_cell parse (date r) = Ok (date r') /\
                       forall c, get c r' = get c r) rs rs'.
Proof.
  revert rs'. induction rs as [|r rs IH]; intros rs' H.
  - injection H as <-. constructor.
  - cbn [to_datetime] in H. step H as Hd into d. step H as Hrs into rs1.
    injection H as <-. constructor; [|now apply IH].
    rewrite location_set_date, date_set_date.
    split; [reflexivity|]. split; [exact Hd|].
    intros c. apply get_set_date.
Qed.

Lemma interpolate_cols_keeps_known cols : forall df df',
  interpolate_cols cols df = Ok df' ->
  Forall2 keeps_known (rows df) (rows df').
Proof.
  induction cols as [|c cols IH]; intros df df' H.
  - injection H as <-. apply Forall2_same, keeps_known_refl.
  - cbn [interpolate_cols] in H. step H as Hc into d1.
    unfold interpolate_col in Hc.
    destruct (has_col (col_name c) df); [|discriminate].
    injection Hc as <-. apply IH in H. cbn [rows] in H.
    eapply Forall2_compose; [|apply groupby_interpolate_keeps_known|exact H].
    intros a b b'. apply keeps_known_trans.
Qed.

(** The steps of [clean], spelled out on a successful run. *)
Lemma clean_steps df selected d :
  clean parse df selected = Ok d ->
  exists rs42 d47,
    to_datetime parse (kept_rows selected df) = Ok rs42 /\
    interpolate_cols numeric_cols (mkDF (columns df) rs42) = Ok d47 /\
    rows d =
      map (fun r => set VaccinationRate (vaccination_rate_of r) r)
        (map (fun r => set DeathRate (death_rate_of r) r)
           (map fillna0_row (rows d47))).
Proof.
  unfold clean. intros H. step H as E50 into d50. step H as E92 into d92.
  unfold add_death_rate in E92. step E92 as H1. step E92 as H2.
  injection E92 as <-.
  unfold add_vaccination_rate in H. step H as H3. step H as H4.
  injection H as <-. clear H1 H2 H3 H4.
  unfold clean_missing in E50.
  step E50 as E36 into d36. step E50 as E39 into d39.
  step E50 as E42 into d42. step E50 as E47 into d47.
  injection E50 as <-.
  apply filter_selected_rows in E36 as [Hc36 Hr36].
  unfold dropna_date in E39. destruct (has_col "date" d36); [|discriminate].
  injection E39 as <-.
  unfold convert_dates in E42. step E42 as Hd. step E42 as Hdt into rs42.
  injection E42 as <-.
  cbn [rows columns boolean_mask] in *. rewrite Hr36 in Hdt.
  fold (kept_rows selected df) in Hdt. rewrite Hc36 in E47.
  exists rs42, d47. auto.
Qed.

Lemma clean_keeps_known df selected d :
  clean parse df selected = Ok d ->
  Forall2 keeps_known (kept_rows selected df) (rows d).
Proof.
  intros H. destruct (clean_steps _ _ _ H) as (rs42 & d47 & Hdt & H47 & ->).
  apply to_datetime_cells in Hdt.
  apply interpolate_cols_keeps_known in H47. cbn [rows] in H47.
  apply Forall2_map_right, Forall2_map_right, Forall2_map_right.
  eapply Forall2_compose; [|exact Hdt|exact H47].
  intros r0 r1 r2 (Hl & _ & Hcells) [Hl2 Hk].
  split.
  - rewrite !location_set. destruct r2; cbn in *. congruence.
  - intros c Hc Hv.
    assert (c <> DeathRate /\ c <> VaccinationRate) as [Hn1 Hn2].
    { unfold source_cols, numeric_cols in Hc. cbn [In] in Hc.
      split; intros ->; intuition discriminate. }
    rewrite get_set_other by congruence.
    rewrite get_set_other by congruence.
    rewrite get_fillna0_row.
    rewrite (Hk c Hc) by (now rewrite Hcells).
    rewrite Hcells. now apply fill0_fixed.
Qed.

End KnownValues.



(** ** A cleaned column, location by location *)

Lemma group_map k (f : Row -> Row) rs :
  (forall r, location (f r) = location r) ->
  group k (map f rs) = map f (group k rs).
Proof.
  intros Hf. induction rs as [|r rs IH]; [reflexivity|].
  cbn [map]. rewrite !group_cons, Hf.
  destruct (String.eqb (location r) k); cbn [map]; now rewrite IH.
Qed.

Lemma group_same_cells c k rs rs' :
  Forall2 (fun r r' => location r' = location r /\ get c r' = get c r) rs rs' ->
  map (get c) (group k rs') = map (get c) (group k rs).
Proof.
  induction 1 as [|r r' rs rs' [Hl Hc] _ IH]; [reflexivity|].
  rewrite !group_cons, Hl.
  destruct (String.eqb (location r) k); cbn [map]; now rewrite ?Hc, IH.
Qed.

Lemma groupby_interpolate_other_column col c k rs :
  c <> col ->
  map (get c) (group k (groupby_interpolate col rs)) = map (get c) (group k rs).
Proof.
  intros Hc. apply group_same_cells.
  eapply Forall2_impl; [|apply groupby_interpolate_writes_one_column_aux].
  intros r r' [(Hl & _ & Hother) _]. split; [exact Hl|]. apply Hother.
  congruence.
Qed.

Lemma interpolate_cols_other_column cols c k : forall df df',
  ~ In c cols -> interpolate_cols cols df = Ok df' ->
  map (get c) (group k (rows df')) = map (get c) (group k (rows df)).
Proof.
  induction cols as [|c0 cols IH]; intros df df' Hnot H.
  - now injection H as <-.
  - cbn [interpolate_cols] in H. step H as Hc into d1.
    unfold interpolate_col in Hc.
    destruct (has_col (col_name c0) df); [|discriminate].
    injection Hc as <-. rewrite (IH _ _ (fun Hin => Hnot (or_intror Hin)) H).
    cbn [rows]. apply groupby_interpolate_other_column.
    intros ->. apply Hnot. now left.
Qed.

Lemma interpolate_cols_column cols c k : forall df df',
  NoDup cols -> In c cols -> interpolate_cols cols df = Ok df' ->
  map (get c) (group k (rows df')) =
  interpolate (map (get c) (group k (rows df))).
Proof.
  induction cols as [|c0 cols IH]; intros df df' Hnd Hin H; [contradiction|].
  cbn [interpolate_cols] in H. step H as Hc into d1.
  unfold interpolate_col in Hc.
  destruct (has_col (col_name c0) df); [|discriminate].
  injection Hc as <-. inversion Hnd as [|? ? Hnot Hnd']; subst.
  destruct (NumCol_eq_dec c c0) as [->|Hne].
  - rewrite (interpolate_cols_other_column _ _ _ _ _ Hnot H). cbn [rows].
    apply groupby_interpolate_series.
  - destruct Hin as [->|Hin]; [now elim Hne|].
    rewrite (IH _ _ Hnd' Hin H). cbn [rows].
    now rewrite groupby_interpolate_other_column.
Qed.

Lemma numeric_cols_NoDup : NoDup numeric_cols.
Proof.
  unfold numeric_cols.
  repeat (constructor; [cbn [In]; intuition discriminate|]). constructor.
Qed.

Lemma numeric_not_derived c :
  In c source_cols -> c <> DeathRate /\ c <> VaccinationRate.
Proof.
  unfold source_cols, numeric_cols. cbn [In].
  intros H. split; intros ->; intuition discriminate.
Qed.

(** The column [c] of the cleaned rows of location [k]: the rows it is
    computed from, and what is computed. *)
Lemma clean_column parse df selected d c k :
  clean parse df selected = Ok d -> In c numeric_cols ->
  map (get c) (group k (rows d)) =
  map fill0 (interpolate (map (get c) (group k (kept_rows selected df)))).
Proof.
  intros H Hc. destruct (clean_steps _ _ _ _ H) as (rs42 & d47 & Hdt & H47 & ->).
  destruct (numeric_not_derived c (or_intror Hc)) as [Hn1 Hn2].
  rewrite !group_map by (intros r; first [apply location_set | now destruct r]).
  rewrite !map_map.
  rewrite (map_ext _ (fun r => fill0 (get c r))).
  2:{ intros r. rewrite !get_set_other by congruence. apply get_fillna0_row. }
  rewrite <- (map_map (get c) fill0). f_equal.
  rewrite (interpolate_cols_column _ _ _ _ _ numeric_cols_NoDup Hc H47).
  cbn [rows]. f_equal. apply group_same_cells.
  eapply Forall2_impl; [|exact (to_datetime_cells _ _ _ Hdt)].
  intros r r' (Hl & _ & Hcells). auto.
Qed.



Lemma valid_points_all_nan i ys :
  Forall (fun y => F64.isnan y = true) ys -> valid_points i ys = [].
Proof.
  intros H. revert i. induction H as [|y ys Hy _ IH]; intros i; simpl.
  - reflexivity.
  - now rewrite Hy.
Qed.

Lemma fill0_nan x : F64.isnan x = true -> fill0 x = F64.zero.
Proof. unfold fill0. now intros ->. Qed.

(** X4: when none of the kept rows of a location has a value in one of
    the six numeric columns, every cleaned row of the location has 0 there;
    for [total_cases] the death rate of these rows is then NaN where the
    cleaned deaths are zero and an infinity where they are not. *)
Theorem clean_column_all_missing :
  forall (parse : string -> option Z) (df : DataFrame)
         (selected : list string) (d : DataFrame) (c : NumCol) (k : string),
    clean parse df selected = Ok d ->
    In c numeric_cols ->
    Forall (fun r => F64.isnan (get c r) = true)
           (group k (kept_rows selected df)) ->
    Forall (fun r => get c r = F64.zero) (group k (rows d)) /\
    (c = TotalCases ->
     Forall (fun r => death_rate r =
                      if F64.is_zero (total_deaths r) then F64.nan
                      else SpecFloat.S754_infinity (F64.signbit (total_deaths r)))
            (group k (rows d))).
Proof.
  intros parse df selected d c k H Hc Hnan.
  assert (Forall (fun r => get c r = F64.zero) (group k (rows d))) as Hzero.
  { apply Forall_map with (f := get c) (P := fun x => x = F64.zero).
    rewrite (clean_column _ _ _ _ _ _ H Hc).
    unfold interpolate. rewrite valid_points_all_nan by now apply Forall_map.
    apply Forall_map, Forall_map.
    eapply Forall_impl; [|exact Hnan]. intros r. apply fill0_nan. }
  split; [exact Hzero|]. intros ->.
  apply clean_cleaned in H as [_ Hrows].
  rewrite Forall_forall in Hzero, Hrows. apply Forall_forall. intros r Hr.
  specialize (Hzero r Hr). cbn [get] in Hzero.
  apply group_In in Hr as [Hr _].
  destruct (Hrows r Hr) as [_ _ Hv Hdr _].
  rewrite Hdr. unfold death_rate_of. rewrite Hzero. unfold F64.zero.
  rewrite div_zero_r, xorb_false_r.
  unfold numeric_cols in Hv. rewrite Forall_forall in Hv.
  assert (F64.isnan (total_deaths r) = false) as ->
    by (apply (Hv TotalDeaths); cbn; tauto).
  reflexivity.
Qed.

Lemma clean_column_all_missing_witness :
  column_of TotalCases (clean iso_date no_cases ["Kenya"]) =
    [F64.zero; F64.zero] /\
  column_of DeathRate (clean iso_date no_cases ["Kenya"]) =
    [F64.nan; F64.pinf] /\
  Forall (fun r => total_cases r = F64.zero)
         (group "Kenya" (rows match clean iso_date no_cases ["Kenya"] with
                               | Ok d => d
                               | Raise _ => no_cases
                               end)).
Proof.
  destruct (clean iso_date no_cases ["Kenya"]) as [d|e] eqn:E;
    [|vm_compute in E; discriminate].
  destruct (clean_column_all_missing iso_date no_cases ["Kenya"] d TotalCases
              "Kenya" E (or_introl eq_refl)) as [Hz _].
  { cbn. repeat constructor. }
  split; [|split; [|exact Hz]];
    vm_compute in E; injection E as <-; reflexivity.
Defined.



(** ** What cleaning reads, and when it succeeds *)

Section CleaningDomain.

Variable parse : string -> option Z.

(** Lines 36-50 read the header and the kept rows only. *)
Lemma clean_missing_kept df selected :
  clean_missing parse df selected =
  if has_col "location" df then
    if has_col "date" df then
      (d42 <- convert_dates parse (mkDF (columns df) (kept_rows selected df)) ;;
       d47 <- interpolate_cols numeric_cols d42 ;;
       Ok (fillna0 d47))%res
    else Raise (KeyError "['date']")
  else Raise (KeyError "'location'").
Proof.
  unfold clean_missing, filter_selected, require.
  destruct (has_col "location" df); [|reflexivity].
  cbn [rbind]. unfold dropna_date, boolean_mask, has_col. cbn [columns rows].
  fold (has_col "date" df). destruct (has_col "date" df); reflexivity.
Qed.

Lemma to_datetime_parses rs rs' :
  to_datetime parse rs = Ok rs' -> Forall (parses parse) rs.
Proof.
  revert rs'. induction rs as [|r rs IH]; intros rs' H; [constructor|].
  cbn [to_datetime] in H. step H as Hd into d. step H as Hrs into rs1.
  constructor; [|eapply IH; reflexivity].
  unfold parses. unfold to_datetime_cell in Hd.
  destruct (date r) as [s| |]; auto.
  destruct (parse s); [discriminate|discriminate].
Qed.

Lemma to_datetime_total rs :
  Forall (parses parse) rs -> exists rs', to_datetime parse rs = Ok rs'.
Proof.
  induction 1 as [|r rs Hr _ [rs' IH]]; [now exists []|].
  cbn [to_datetime]. rewrite IH. unfold parses in Hr. unfold to_datetime_cell.
  destruct (date r) as [s|t|].
  - destruct (parse s) as [t|]; [|now elim Hr]. cbn [rbind]. eauto.
  - cbn [rbind]. eauto.
  - cbn [rbind]. eauto.
Qed.

Lemma interpolate_cols_total cols : forall df,
  Forall (fun c => has_col (col_name c) df = true) cols ->
  exists df', interpolate_cols cols df = Ok df' /\ columns df' = columns df.
Proof.
  induction cols as [|c cols IH]; intros df H; [now exists df|].
  inversion H as [|? ? Hc Hcs]; subst.
  cbn [interpolate_cols]. unfold interpolate_col. rewrite Hc. cbn [rbind].
  destruct (IH (mkDF (columns df) (groupby_interpolate c (rows df))))
    as [df' [H' Hcols]].
  { eapply Forall_impl; [|exact Hcs]. intros c'. unfold has_col. auto. }
  exists df'. auto.
Qed.

Lemma clean_total df selected :
  Forall (fun name => has_col name df = true) owid_columns ->
  Forall (parses parse) (kept_rows selected df) ->
  exists d, clean parse df selected = Ok d.
Proof.
  intros Hcols Hdates. rewrite Forall_forall in Hcols.
  assert (Hh : forall n, In n owid_columns ->
                         existsb (String.eqb n) (columns df) = true)
    by exact Hcols.
  unfold clean. rewrite clean_missing_kept.
  rewrite !Hcols by (cbn; tauto).
  unfold convert_dates. rewrite require_has by (apply Hh; cbn; tauto).
  cbn [rbind rows columns].
  destruct (to_datetime_total _ Hdates) as [rs42 ->]. cbn [rbind].
  destruct (interpolate_cols_total numeric_cols (mkDF (columns df) rs42))
    as [d47 [-> Hc47]].
  { unfold numeric_cols. repeat constructor; apply Hh; cbn; tauto. }
  cbn [rbind columns] in *.
  unfold add_death_rate, fillna0. cbn [columns rows].
  rewrite !require_has by (rewrite has_col_mk, Hc47; apply Hh; cbn; tauto).
  cbn [rbind]. unfold add_vaccination_rate. cbn [columns rows].
  rewrite !require_has
    by (rewrite has_col_mk, existsb_with_column, Hc47, Hh by (cbn; tauto);
        reflexivity).
  cbn [rbind]. eauto.
Qed.

Lemma clean_needs df selected d :
  clean parse df selected = Ok d ->
  Forall (fun name => has_col name df = true) owid_columns /\
  Forall (parses parse) (kept_rows selected df).
Proof.
  intros H. split.
  - unfold clean in H. step H as E50 into d50. step H as E92 into d92.
    pose proof (clean_missing_spec _ _ _ _ E50) as (Hc & Hhas & _).
    unfold add_death_rate in E92. step E92 as H1. step E92 as H2.
    injection E92 as <-.
    unfold add_vaccination_rate in H. step H as H3. step H as H4.
    apply require_Ok in H4.
    rewrite has_col_mk, existsb_with_column, orb_false_r, Hc in H4.
    unfold owid_columns. unfold numeric_cols in Hhas. cbn [map col_name] in Hhas.
    repeat match goal with
           | H : Forall _ (_ :: _) |- _ => inversion H; clear H; subst
           end.
    repeat constructor; assumption.
  - destruct (clean_steps _ _ _ _ H) as (rs42 & _ & Hdt & _).
    eapply to_datetime_parses. exact Hdt.
Qed.

End CleaningDomain.

(** X6: cleaning reads the header and the kept rows only: two files with
    the same header whose selected, dated rows are the same get the same
    result, exception included; what the other rows hold (a date that does
    not parse, any value) is never looked at. *)
Theorem clean_ignores_dropped_rows :
  forall (parse : string -> option Z) (df1 df2 : DataFrame)
         (selected : list string),
    columns df1 = columns df2 ->
    kept_rows selected df1 = kept_rows selected df2 ->
    clean parse df1 selected = clean parse df2 selected.
Proof.
  intros parse df1 df2 selected Hc Hk. unfold clean.
  rewrite !clean_missing_kept. unfold has_col. now rewrite Hc, Hk.
Qed.

Lemma clean_ignores_dropped_rows_witness :
  clean iso_date three_countries_noise ["Kenya"; "India"] =
  clean iso_date three_countries ["Kenya"; "India"].
Proof.
  apply clean_ignores_dropped_rows; reflexivity.
Defined.


(** ** Failures of the cleaning stage, as the run shows them *)

Section CleaningFailures.

Variable parse : string -> option Z.
Variable read_csv : string -> result DataFrame.

Lemma analyze_body_cleaning_fails path selected df e :
  read_csv path = Ok df ->
  clean_missing parse df selected = Raise e ->
  analyze_body parse read_csv path selected = (exploration path df, Raise e).
Proof.
  intros Hread Hfail. unfold analyze_body. rewrite Hread.
  cbn [bind emit lift app]. rewrite Hfail. reflexivity.
Qed.

Lemma to_datetime_fails rs :
  Exists (unparseable parse) rs ->
  exists m, to_datetime parse rs = Raise (ValueError m).
Proof.
  induction 1 as [r rs [s [Hd Hs]] | r rs _ [m IH]]; cbn [to_datetime].
  - rewrite Hd. cbn [to_datetime_cell]. rewrite Hs. cbn [rbind]. eauto.
  - rewrite IH. unfold to_datetime_cell.
    destruct (date r) as [s|t|]; [destruct (parse s)|..]; cbn [rbind]; eauto.
Qed.

End CleaningFailures.

(** X8: when lines 36-50 fail, the run shows the exploration output of
    lines 23-32, then the message of the handler for the exception, then
    the completion notice, and no figure at all. *)
Theorem cleaning_failure_shows_no_figure :
  forall (parse : string -> option Z) (read_csv : string -> result DataFrame)
         (data_path : string) (selected : list string) (df : DataFrame) (e : exn),
    read_csv data_path = Ok df ->
    clean_missing parse df selected = Raise e ->
    analyze_covid_data parse read_csv data_path selected =
      (exploration data_path df ++ handler_output data_path e
         ++ [Print msg_complete], Ok tt) /\
    filter is_figure
      (fst (analyze_covid_data parse read_csv data_path selected)) = [].
Proof.
  intros parse read_csv data_path selected df e Hread Hfail.
  unfold analyze_covid_data. rewrite try_handlers_run.
  rewrite (analyze_body_cleaning_fails _ _ _ _ _ _ Hread Hfail).
  cbn [fst snd]. split; [reflexivity|].
  rewrite !filter_app. destruct e; reflexivity.
Qed.

Lemma cleaning_failure_witness :
  analyze_covid_data iso_date (one_file "f.csv" bad_date) "f.csv" ["A"] =
    (exploration "f.csv" bad_date
       ++ [Print "An unexpected error occurred: Unknown datetime string format, unable to parse: yesterday";
           Print "Please check the data and try again.";
           Print msg_complete], Ok tt) /\
  filter is_figure
    (fst (analyze_covid_data iso_date (one_file "f.csv" bad_date) "f.csv" ["A"]))
  = [].
Proof.
  apply (cleaning_failure_shows_no_figure iso_date (one_file "f.csv" bad_date)
           "f.csv" ["A"] bad_date
           (ValueError "Unknown datetime string format, unable to parse: yesterday"));
    reflexivity.
Defined.



(** ** The figures of a run *)

Lemma plot_series_map col (f : Row -> Row) cs cs' rs selected :
  (forall r, location (f r) = location r /\ date (f r) = date r /\
             get col (f r) = get col r) ->
  plot_series col (mkDF cs (map f rs)) selected =
  plot_series col (mkDF cs' rs) selected.
Proof.
  intros Hf. unfold plot_series. cbn [rows]. apply map_ext. intros country.
  f_equal. rewrite group_map by (intros r; apply Hf). rewrite map_map.
  apply map_ext. intros r. destruct (Hf r) as (_ & -> & ->). reflexivity.
Qed.

Lemma plot_series_columns col cs cs' rs selected :
  plot_series col (mkDF cs rs) selected = plot_series col (mkDF cs' rs) selected.
Proof. reflexivity. Qed.

Section Figures.

Variable parse : string -> option Z.
Variable read_csv : string -> result DataFrame.

(** Line 92 cannot fail after lines 36-50. *)
Lemma add_death_rate_after_cleaning df selected d50 :
  clean_missing parse df selected = Ok d50 ->
  add_death_rate d50 =
  Ok (mkDF (with_column "death_rate" (columns d50))
           (map (fun r => set DeathRate (death_rate_of r) r) (rows d50))).
Proof.
  intros H. apply clean_missing_spec in H as (Hc & Hhas & _).
  rewrite Forall_forall in Hhas. unfold add_death_rate.
  rewrite !require_has
    by (unfold has_col; rewrite Hc; apply Hhas; cbn; tauto).
  reflexivity.
Qed.

(** A run whose lines 36-50 succeed, up to line 117. *)
Lemma analyze_body_until_vaccination path selected df d50 d92 e :
  read_csv path = Ok df ->
  clean_missing parse df selected = Ok d50 ->
  add_death_rate d50 = Ok d92 ->
  add_vaccination_rate d92 = Raise e ->
  analyze_body parse read_csv path selected =
  (report_until_vaccination path selected df d50 d92, Raise e).
Proof.
  intros Hread H50 H92 H117.
  pose proof (clean_missing_spec _ _ _ _ H50) as (Hc50 & Hhas & _).
  assert (Hh : forall n, In n ("location" :: "date" :: map col_name numeric_cols) ->
                         existsb (String.eqb n) (columns d50) = true).
  { intros n Hn. rewrite Hc50. rewrite Forall_forall in Hhas.
    exact (Hhas n Hn). }
  assert (columns d92 = with_column "death_rate" (columns d50)) as Hc92.
  { rewrite (add_death_rate_after_cleaning _ _ _ H50) in H92.
    now injection H92 as <-. }
  assert (Hp50 : forall title col,
            In (col_name col) (map col_name numeric_cols) ->
            line_plot title col selected d50 =
            ([LinePlot title (plot_series col d50 selected)], Ok tt)).
  { intros title col Hcol. apply line_plot_ok; unfold has_col; apply Hh;
      cbn [In]; auto. }
  assert (Hp92 : forall title col,
            In (col_name col) ("death_rate" :: map col_name numeric_cols) ->
            line_plot title col selected d92 =
            ([LinePlot title (plot_series col d92 selected)], Ok tt)).
  { intros title col Hcol.
    apply line_plot_ok; unfold has_col; rewrite Hc92, existsb_with_column;
      try (rewrite Hh by (cbn; tauto); reflexivity).
    destruct Hcol as [<-|Hcol].
    - rewrite String.eqb_refl. apply orb_true_r.
    - rewrite Hh by (cbn [In]; auto). reflexivity. }
  unfold analyze_body. rewrite Hread. cbn [bind emit lift app].
  rewrite H50. cbn [bind emit lift app].
  rewrite !Hp50 by (cbn; tauto). cbn [bind emit lift app].
  rewrite H92. cbn [bind emit lift app].
  rewrite !Hp92 by (cbn; tauto). cbn [bind emit lift app].
  rewrite H117. reflexivity.
Qed.

Lemma add_vaccination_rate_rows d92 d :
  add_vaccination_rate d92 = Ok d ->
  rows d = map (fun r => set VaccinationRate (vaccination_rate_of r) r) (rows d92).
Proof.
  unfold add_vaccination_rate. intros H. step H as H1. step H as H2.
  now injection H as <-.
Qed.

Lemma plot_series_step col (f : Row -> Row) d d' selected :
  rows d' = map f (rows d) ->
  (forall r, location (f r) = location r /\ date (f r) = date r /\
             get col (f r) = get col r) ->
  plot_series col d' selected = plot_series col d selected.
Proof.
  intros Hrows Hf. destruct d as [cs rs], d' as [cs' rs'].
  cbn [rows] in Hrows. subst rs'. now apply plot_series_map.
Qed.

(** The figures of a run whose cleaning succeeds. *)
Lemma figures_after_cleaning path selected df d :
  read_csv path = Ok df ->
  clean parse df selected = Ok d ->
  filter is_figure (fst (analyze_covid_data parse read_csv path selected)) =
  line_charts selected d
    ++ (if Nat.eqb (length (group_keys (rows d))) 3
        then [BarPlot bar_title (snapshot_bars (latest (rows d)))]
        else []).
Proof.
  intros Hread Hclean.
  pose proof (clean_cleaned _ _ _ _ Hclean) as Hcl.
  unfold clean in Hclean.
  step Hclean as H50 into d50. step Hclean as H92 into d92.
  pose proof (analyze_body_until_summary parse read_csv path selected
                df d50 d92 d Hread H50 H92 Hclean) as Hbody.
  destruct (summary_of_cleaned selected d Hcl) as [Hbad Hgood].
  assert (length (latest (rows d)) = length (group_keys (rows d))) as Hlen
    by (unfold latest; apply length_map).
  rewrite Hlen in Hbad, Hgood.
  assert (rows d92 = map (fun r => set DeathRate (death_rate_of r) r) (rows d50))
    as Hr92.
  { rewrite (add_death_rate_after_cleaning _ _ _ H50) in H92.
    now injection H92 as <-. }
  pose proof (add_vaccination_rate_rows _ _ Hclean) as Hr.
  assert (E92 : forall col, col <> VaccinationRate ->
                            plot_series col d selected =
                            plot_series col d92 selected).
  { intros col Hne. eapply plot_series_step; [exact Hr|]. intros r. cbv beta.
    rewrite location_set, date_set, get_set_other by congruence. auto. }
  assert (E50 : forall col, col <> DeathRate ->
                            plot_series col d92 selected =
                            plot_series col d50 selected).
  { intros col Hne. eapply plot_series_step; [exact Hr92|]. intros r.
    cbv beta. rewrite location_set, date_set, get_set_other by congruence. auto. }
  assert (Hfig : filter is_figure
                   (report_until_summary path selected df d50 d92 d) =
                 line_charts selected d).
  { unfold report_until_summary, line_charts. cbn [filter is_figure].
    rewrite (E92 TotalCases), (E92 TotalDeaths), (E92 NewCases),
      (E92 DeathRate), (E92 TotalVaccinations) by discriminate.
    rewrite (E50 TotalCases), (E50 TotalDeaths), (E50 NewCases)
      by discriminate.
    reflexivity. }
  unfold analyze_covid_data. rewrite try_handlers_run. cbn [fst].
  destruct (Nat.eqb_spec (length (group_keys (rows d))) 3) as [Hn|Hn].
  - destruct (Hgood Hn) as [summary [Hs Hbar]].
    rewrite Hs, Hbar in Hbody. rewrite Hbody. cbn [fst snd].
    rewrite !filter_app, Hfig. reflexivity.
  - rewrite (Hbad Hn) in Hbody. rewrite Hbody. cbn [fst snd].
    rewrite !filter_app, Hfig. reflexivity.
Qed.

End Figures.





(** ** The insights *)

Ltac next_step :=
  match goal with
  | |- context [match ?x with Ok _ => _ | Raise _ => _ end] =>
      let E := fresh "E" in
      destruct x eqn:E; cbn [bind lift emit app fst snd]
  end.

Ltac not_header H :=
  repeat (destruct H as [H|H]; [discriminate H|]); exact H.

Section Insights.

Variable parse : string -> option Z.
Variable read_csv : string -> result DataFrame.

(** The body either raises before the insights, or has run every line. *)
Lemma analyze_body_cases path selected :
  (exists e,
     snd (analyze_body parse read_csv path selected) = Raise e /\
     ~ In insights_header (fst (analyze_body parse read_csv path selected))) \/
  (exists df d summary,
     read_csv path = Ok df /\ clean parse df selected = Ok d /\
     summarize_latest d = Ok summary /\
     snd (analyze_body parse read_csv path selected) = Ok tt /\
     In insights_header (fst (analyze_body parse read_csv path selected))).
Proof.
  unfold analyze_body, line_plot, bar_plot, insights_header.
  cbn [bind lift emit app fst snd].
  next_step; [|left; eexists; split; [reflexivity|intros H; exact H]].
  next_step; [|left; eexists; split; [reflexivity|intros H; cbn [In] in H; not_header H]].
  do 3 (next_step; [|left; eexists; split; [reflexivity|intros H; cbn [In] in H; not_header H]]).
  next_step; [|left; eexists; split; [reflexivity|intros H; cbn [In] in H; not_header H]].
  do 2 (next_step; [|left; eexists; split; [reflexivity|intros H; cbn [In] in H; not_header H]]).
  next_step; [|left; eexists; split; [reflexivity|intros H; cbn [In] in H; not_header H]].
  next_step; [|left; eexists; split; [reflexivity|intros H; cbn [In] in H; not_header H]].
  next_step; [|left; eexists; split; [reflexivity|intros H; cbn [In] in H; not_header H]].
  do 2 (next_step; [|left; eexists; split; [reflexivity|intros H; cbn [In] in H; not_header H]]).
  right. eexists _, _, _. split; [reflexivity|]. split.
  - unfold clean.
    repeat match goal with
           | H : ?x = Ok _ |- context [rbind ?x _] => rewrite H; cbn [rbind]
           end.
    eassumption.
  - split; [eassumption|]. split; [reflexivity|].
    cbn [In]. do 19 right. now left.
Qed.

End Insights.



(** ** The summary and the entry point *)

Lemma sorted_same_elements l1 : forall l2,
  StronglySorted key_lt l1 -> StronglySorted key_lt l2 ->
  (forall x, In x l1 <-> In x l2) -> l1 = l2.
Proof.
  induction l1 as [|a l1 IH]; intros l2 H1 H2 Hsame.
  - destruct l2 as [|b l2]; [reflexivity|].
    exfalso. apply (Hsame b). now left.
  - destruct l2 as [|b l2]; [exfalso; apply (Hsame a); now left|].
    inversion H1 as [|? ? Hs1 Hall1]; subst.
    inversion H2 as [|? ? Hs2 Hall2]; subst.
    rewrite Forall_forall in Hall1, Hall2.
    assert (a = b) as ->.
    { destruct (proj1 (Hsame a) (or_introl eq_refl)) as [Hab|Hab];
        [now symmetry|].
      destruct (proj2 (Hsame b) (or_introl eq_refl)) as [Hba|Hba];
        [assumption|].
      exfalso. apply (key_lt_irrefl a).
      eapply key_lt_trans; [apply Hall1; exact Hba | apply Hall2; exact Hab]. }
    f_equal. apply IH; try assumption.
    intros x. split; intros Hx.
    + destruct (proj1 (Hsame x) (or_intror Hx)) as [<-|Hx2]; [|assumption].
      exfalso. exact (key_lt_irrefl _ (Hall1 _ Hx)).
    + destruct (proj2 (Hsame x) (or_intror Hx)) as [<-|Hx1]; [|assumption].
      exfalso. exact (key_lt_irrefl _ (Hall2 _ Hx)).
Qed.

Lemma group_keys_group k rs : In k (group_keys rs) <-> group k rs <> [].
Proof.
  rewrite group_keys_In, in_map_iff. split.
  - intros [r [Hl Hr]] Hnil.
    assert (In r (group k rs)) as Hin by (apply group_In; auto).
    rewrite Hnil in Hin. exact Hin.
  - intros Hne. destruct (group k rs) as [|r g] eqn:E; [now elim Hne|].
    assert (In r (group k rs)) as Hin by (rewrite E; now left).
    apply group_In in Hin as [Hin Hl]. eauto.
Qed.

Lemma latest_same_groups rs1 rs2 :
  (forall k, group k rs1 = group k rs2) -> latest rs1 = latest rs2.
Proof.
  intros Hg. unfold latest.
  assert (group_keys rs1 = group_keys rs2) as ->.
  { apply sorted_same_elements; try apply group_keys_sorted.
    intros k. now rewrite !group_keys_group, Hg. }
  apply map_ext. intros k. now rewrite Hg.
Qed.

(** X13: the summary of line 130 has its rows in strictly increasing
    (byte-wise) order of location, whatever the order of the rows or of the
    selected list; it depends on the rows of each location in their own
    order only, not on how rows of different locations are interleaved. *)
Theorem latest_ignores_interleaving :
  (forall rs, StronglySorted key_lt (map location (latest rs))) /\
  (forall rs1 rs2,
     (forall k, group k rs1 = group k rs2) -> latest rs1 = latest rs2).
Proof.
  split.
  - intros rs. rewrite latest_locations. apply group_keys_sorted.
  - exact latest_same_groups.
Qed.

Lemma latest_ignores_interleaving_witness :
  latest (rows script_countries) = latest script_countries_regrouped /\
  map location (latest (rows script_countries)) =
    ["India"; "Kenya"; "United States"].
Proof.
  destruct latest_ignores_interleaving as [_ Hsame].
  split; [|reflexivity].
  apply Hsame. intros k. unfold script_countries, script_countries_regrouped.
  cbn [rows]. rewrite !group_cons. cbn [location vaccinated raw_row group filter].
  destruct (String.eqb "United States" k) eqn:E1;
    destruct (String.eqb "Kenya" k) eqn:E2;
    destruct (String.eqb "India" k) eqn:E3; try reflexivity;
    repeat match goal with
           | H : String.eqb _ _ = true |- _ => apply String.eqb_eq in H
           end;
    congruence.
Defined.

Lemma filter_bar_of_figures l :
  filter is_bar_plot l = filter is_bar_plot (filter is_figure l).
Proof.
  induction l as [|e l IH]; [reflexivity|].
  destruct e; cbn [filter is_bar_plot is_figure]; now rewrite ?IH.
Qed.

Lemma script_keys_sorted :
  StronglySorted key_lt ["India"; "Kenya"; "United States"].
Proof. repeat constructor. Qed.



(** ** Edge cases of the selection *)

Lemma kept_rows_same_members selected selected' df :
  (forall s, In s selected <-> In s selected') ->
  kept_rows selected df = kept_rows selected' df.
Proof.
  intros H. unfold kept_rows. f_equal. apply filter_ext. intros r.
  now apply isin_ext.
Qed.

(** X15: the cleaned table depends on the selected list as a set: a list
    with the same members, in another order or with repetitions, gives the
    same result (only the curves of the figures follow the list). *)
Theorem clean_selected_as_a_set :
  forall (parse : string -> option Z) (df : DataFrame)
         (selected selected' : list string),
    (forall s, In s selected <-> In s selected') ->
    clean parse df selected = clean parse df selected'.
Proof.
  intros parse df selected selected' H. unfold clean.
  rewrite !clean_missing_kept.
  now rewrite (kept_rows_same_members selected selected' df H).
Qed.

Lemma clean_selected_as_a_set_witness :
  clean iso_date three_countries ["Kenya"; "India"] =
  clean iso_date three_countries ["India"; "Kenya"; "India"; "Kenya"].
Proof.
  apply clean_selected_as_a_set. intros s. cbn. tauto.
Defined.

Section NothingKept.

Variable parse : string -> option Z.
Variable read_csv : string -> result DataFrame.

(** A cleaned run that stops at line 133. *)
Lemma run_stops_at_line_133 path selected df d :
  read_csv path = Ok df ->
  clean parse df selected = Ok d ->
  length (group_keys (rows d)) <> 3 ->
  exists out,
    analyze_covid_data parse read_csv path selected =
    (out ++ [Print (msg_unexpected
                      (ValueError (msg_length_mismatch
                                     (length (group_keys (rows d))))));
             Print "Please check the data and try again.";
             Print msg_complete], Ok tt).
Proof.
  intros Hread Hclean Hn.
  pose proof (clean_cleaned _ _ _ _ Hclean) as Hcl.
  unfold clean in Hclean.
  step Hclean as H50 into d50. step Hclean as H92 into d92.
  pose proof (analyze_body_until_summary parse read_csv path selected
                df d50 d92 d Hread H50 H92 Hclean) as Hbody.
  destruct (summary_of_cleaned selected d Hcl) as [Hbad _].
  assert (length (latest (rows d)) = length (group_keys (rows d))) as Hlen
    by (unfold latest; apply length_map).
  rewrite Hlen in Hbad. rewrite (Hbad Hn) in Hbody.
  unfold analyze_covid_data. rewrite try_handlers_run, Hbody. cbn [fst snd].
  eexists. reflexivity.
Qed.

End NothingKept.


